(** * Project-GIA: the Firestore service layer and the student dashboard

    A shallow embedding of [src/firebase/services.js] (the document-store
    facade) and of the event handlers of [src/pages/DashboardPage.jsx],
    followed by the properties of both that the specification states.

    - JavaScript objects are finite maps from field names to scalar values.
    - [async] functions are computations in a state-and-exception monad over
      a [World]: the database client's state, the wall clock and the console.
      An exception keeps the effects that happened before it, as in
      JavaScript.
    - The Firestore SDK is an interface ([Firestore]); the facade is written
      against any implementation of it.  [MemStore] is a reference
      implementation (documents in memory, scripted transport faults) used
      wherever a property depends on what the store does with a request. *)

From Stdlib Require Import ZArith String Ascii List Bool Lia Sorted.
From stdpp Require Import base option list gmap strings fin_maps.
Import ListNotations.

Local Open Scope Z_scope.
Local Open Scope string_scope.
Local Open Scope list_scope.

(** ** JavaScript values and objects *)

Inductive value : Type :=
| VNull
| VBool (b : bool)
| VNum (n : Z)
| VStr (s : string).

#[global] Instance value_eq_dec : EqDecision value.
Proof. solve_decision. Defined.

(** A plain object with scalar fields. *)
Abbreviation record := (gmap string value).

(** [{ ...onto, ...fields }]: every own field of [fields] is copied onto
    [onto], replacing a field of the same name that is already there. *)
Definition spread (fields onto : record) : record := fields ∪ onto.

(** Truthiness of a [string | null] and of a [number | null] argument. *)
Definition truthy_str (o : option string) : bool :=
  match o with
  | Some s => negb (String.eqb s "")
  | None => false
  end.

Definition truthy_num (o : option nat) : bool :=
  match o with
  | Some n => negb (Nat.eqb n 0)
  | None => false
  end.

(** ** [Date.prototype.toISOString] *)

Module Iso.

Definition digit (n : Z) : ascii := ascii_of_N (Z.to_N (48 + n mod 10)).

(** The [w] low decimal digits of [n], most significant first. *)
Fixpoint pad (w : nat) (n : Z) : string :=
  match w with
  | O => ""
  | S w' => pad w' (n / 10) +:+ String (digit n) ""
  end.

(** Proleptic Gregorian date of a day number counted from 1970-01-01. *)
Definition civil (days : Z) : Z * Z * Z :=
  let z := days + 719468 in
  let era := z / 146097 in
  let doe := z - era * 146097 in
  let yoe := (doe - doe / 1460 + doe / 36524 - doe / 146096) / 365 in
  let doy := doe - (365 * yoe + yoe / 4 - yoe / 100) in
  let mp := (5 * doy + 2) / 153 in
  let d := doy - (153 * mp + 2) / 5 + 1 in
  let m := if (mp <? 10)%Z then mp + 3 else mp - 9 in
  let y := yoe + era * 400 + (if (m <=? 2)%Z then 1 else 0) in
  (y, m, d).

Definition year (y : Z) : string :=
  if (0 <=? y)%Z && (y <=? 9999)%Z then pad 4 y
  else (if (y <? 0)%Z then "-" else "+") +:+ pad 6 (Z.abs y).

Definition toISOString (t : Z) : string :=
  let '(y, m, d) := civil (t / 86400000) in
  let ms := t mod 86400000 in
  year y +:+ "-" +:+ pad 2 m +:+ "-" +:+ pad 2 d +:+ "T" +:+
  pad 2 (ms / 3600000) +:+ ":" +:+ pad 2 (ms / 60000 mod 60) +:+ ":" +:+
  pad 2 (ms / 1000 mod 60) +:+ "." +:+ pad 3 (ms mod 1000) +:+ "Z".

End Iso.

(** ** The Firestore client *)

(** Whatever the client throws. *)
Record error : Type := FirestoreError { err_code : string; err_message : string }.

#[global] Instance error_eq_dec : EqDecision error.
Proof. solve_decision. Defined.

Inductive constraint : Type :=
| Where (field operator : string) (v : value)
| OrderBy (field : string)
| Limit (n : nat).

(** A collection reference is a query without constraints. *)
Record Query : Type := { q_path : string; q_constraints : list constraint }.

Record DocRef : Type := { ref_path : string; ref_id : string }.

(** [snap_data] is [None] when the document does not exist ([exists()] is
    false and [data()] is undefined). *)
Record DocSnap : Type := { snap_id : string; snap_data : option record }.

Definition collection (collectionName : string) : Query :=
  {| q_path := collectionName; q_constraints := [] |}.

(** The reference [doc(db, collectionName, documentId)] denotes.  The SDK
    refuses an empty identifier with an error of its own; a client refuses
    it as the first step of the request made with the reference (see
    [MemStore.checked]), which is where each operation of the facade uses
    it, inside the same [try].  In [setDocument] and [updateDocument] the
    clock has then been read already, where the SDK refuses the reference
    before; reading the clock changes nothing but the count of readings. *)
Definition doc (collectionName documentId : string) : DocRef :=
  {| ref_path := collectionName; ref_id := documentId |}.

Definition query (q : Query) (constraints : list constraint) : Query :=
  {| q_path := q_path q; q_constraints := q_constraints q ++ constraints |}.

Definition snap_exists (d : DocSnap) : bool :=
  if snap_data d is Some _ then true else false.

(** A request to the client: it answers or throws, and may change the
    client's state [St] either way. *)
Definition Call (St A : Type) : Type := St -> (error + A) * St.

Class Firestore (St : Type) : Type := {
  addDoc : Query -> record -> Call St DocRef;
  setDoc : DocRef -> record -> Call St unit;
  getDoc : DocRef -> Call St DocSnap;
  getDocs : Query -> Call St (list DocSnap);
  updateDoc : DocRef -> record -> Call St unit;
  deleteDoc : DocRef -> Call St unit
}.

(** ** The world and its monad *)

Inductive event : Type :=
| ConsoleLog (args : list string)
| ConsoleError (msg : string) (e : error)
| Alert (msg : string)
| CallbackDoc (arg : option record)
| CallbackDocs (arg : list record).

(** [clock n] is what the [n]-th reading of the wall clock returns, in
    milliseconds since the epoch; [ticks] counts the readings so far. *)
Record World (St : Type) : Type := {
  db : St;
  clock : nat -> Z;
  ticks : nat;
  console : list event
}.

Arguments db {St} _.
Arguments clock {St} _ _.
Arguments ticks {St} _.
Arguments console {St} _.

Definition M (St A : Type) : Type := World St -> (error + A) * World St.

Section Monad.

Context {St : Type}.

Definition ret {A} (a : A) : M St A := fun w => (inr a, w).

Definition throw {A} (e : error) : M St A := fun w => (inl e, w).

Definition bind {A B} (m : M St A) (k : A -> M St B) : M St B :=
  fun w =>
    match m w with
    | (inr a, w') => k a w'
    | (inl e, w') => (inl e, w')
    end.

(** [try { body } catch (error) { handler(error) }] *)
Definition try_catch {A} (body : M St A) (handler : error -> M St A) : M St A :=
  fun w =>
    match body w with
    | (inr a, w') => (inr a, w')
    | (inl e, w') => handler e w'
    end.

(** [await] of a client request. *)
Definition await {A} (c : Call St A) : M St A :=
  fun w =>
    let '(r, s) := c (db w) in
    (r, {| db := s; clock := clock w; ticks := ticks w; console := console w |}).

Definition emit (ev : event) : M St unit :=
  fun w =>
    (inr tt, {| db := db w; clock := clock w; ticks := ticks w;
                console := console w ++ [ev] |}).

(** [new Date().toISOString()] *)
Definition new_Date_toISOString : M St string :=
  fun w =>
    (inr (Iso.toISOString (clock w (ticks w))),
     {| db := db w; clock := clock w; ticks := S (ticks w);
        console := console w |}).

Definition console_log (args : list string) : M St unit := emit (ConsoleLog args).

Definition console_error (msg : string) (e : error) : M St unit :=
  emit (ConsoleError msg e).

Definition alert (msg : string) : M St unit := emit (Alert msg).

End Monad.

Declare Scope js_scope.
Delimit Scope js_scope with js.
Notation "x <- m ;; k" := (bind m (fun x => k))
  (at level 100, m at next level, right associativity) : js_scope.
Notation "m ;; k" := (bind m (fun _ => k))
  (at level 100, right associativity) : js_scope.
Local Open Scope js_scope.

(** ** The facade: [src/firebase/services.js] *)

(** [{ id: doc.id, ...doc.data() }], the object every read path builds from
    a snapshot: the [id] entry is written first and the stored fields are
    spread over it. *)
Definition with_id (d : DocSnap) : record :=
  spread (default ∅ (snap_data d)) {[ "id" := VStr (snap_id d) ]}.

(** [snapshot.forEach((doc) => { documents.push({ id: doc.id, ...doc.data() }) })] *)
Definition push_each (querySnapshot : list DocSnap) (documents : list record) : list record :=
  fold_left (fun documents d => documents ++ [with_id d]) querySnapshot documents.

Definition condition : Type := string * string * value.

Section Facade.

Context {St : Type} `{!Firestore St}.

Definition addDocument (collectionName : string) (data : record) : M St string :=
  try_catch
    (createdAt <- new_Date_toISOString;;
     updatedAt <- new_Date_toISOString;;
     docRef <- await (addDoc (collection collectionName)
                        (<["updatedAt" := VStr updatedAt]>
                           (<["createdAt" := VStr createdAt]> (spread data ∅))));;
     console_log ["Document added with ID:"; ref_id docRef];;
     ret (ref_id docRef))
    (fun error =>
       console_error "Error adding document:" error;;
       throw error).

Definition setDocument (collectionName documentId : string) (data : record)
  : M St unit :=
  try_catch
    (createdAt <- new_Date_toISOString;;
     updatedAt <- new_Date_toISOString;;
     await (setDoc (doc collectionName documentId)
              (<["updatedAt" := VStr updatedAt]>
                 (<["createdAt" := VStr createdAt]> (spread data ∅))));;
     console_log ["Document set with ID:"; documentId])
    (fun error =>
       console_error "Error setting document:" error;;
       throw error).

(** [None] is JavaScript's [null]. *)
Definition getDocument (collectionName documentId : string)
  : M St (option record) :=
  try_catch
    (let docRef := doc collectionName documentId in
     docSnap <- await (getDoc docRef);;
     if snap_exists docSnap then
       ret (Some (with_id docSnap))
     else
       (console_log ["No such document!"];;
        ret None))
    (fun error =>
       console_error "Error getting document:" error;;
       throw error).

Definition getAllDocuments (collectionName : string) : M St (list record) :=
  try_catch
    (querySnapshot <- await (getDocs (collection collectionName));;
     let documents := [] in
     let documents := push_each querySnapshot documents in
     ret documents)
    (fun error =>
       console_error "Error getting documents:" error;;
       throw error).

(** [limitCount] is a natural number or [null], [orderByField] a string or
    [null]; both are tested for truthiness. *)
Definition queryDocuments (collectionName : string)
    (conditions : list condition) (orderByField : option string)
    (limitCount : option nat) : M St (list record) :=
  try_catch
    (let q := collection collectionName in
     let constraints := [] in
     let constraints :=
       fold_left (fun constraints '(field, operator, v) =>
                    constraints ++ [Where field operator v])
                 conditions constraints in
     let constraints :=
       if truthy_str orderByField
       then constraints ++ [OrderBy (default "" orderByField)]
       else constraints in
     let constraints :=
       if truthy_num limitCount
       then constraints ++ [Limit (default O limitCount)]
       else constraints in
     let q := query q constraints in
     querySnapshot <- await (getDocs q);;
     let documents := [] in
     let documents := push_each querySnapshot documents in
     ret documents)
    (fun error =>
       console_error "Error querying documents:" error;;
       throw error).

Definition updateDocument (collectionName documentId : string) (data : record)
  : M St unit :=
  try_catch
    (let docRef := doc collectionName documentId in
     updatedAt <- new_Date_toISOString;;
     await (updateDoc docRef (<["updatedAt" := VStr updatedAt]> (spread data ∅)));;
     console_log ["Document updated:"; documentId])
    (fun error =>
       console_error "Error updating document:" error;;
       throw error).

Definition deleteDocument (collectionName documentId : string) : M St unit :=
  try_catch
    (await (deleteDoc (doc collectionName documentId));;
     console_log ["Document deleted:"; documentId])
    (fun error =>
       console_error "Error deleting document:" error;;
       throw error).

End Facade.

(** ** The requests the facade sends *)

Section Requests.

Context {St : Type}.

(** The object [addDocument] and [setDocument] send: the caller's fields
    with both timestamps written over them, each from its own reading of
    the clock. *)
Definition stamped (data : record) (w : World St) : record :=
  <["updatedAt" := VStr (Iso.toISOString (clock w (S (ticks w))))]>
    (<["createdAt" := VStr (Iso.toISOString (clock w (ticks w)))]> data).

(** The object [updateDocument] sends. *)
Definition touched (data : record) (w : World St) : record :=
  <["updatedAt" := VStr (Iso.toISOString (clock w (ticks w)))]> data.

(** The query [queryDocuments] sends. *)
Definition built (collectionName : string) (conditions : list condition)
    (orderByField : option string) (limitCount : option nat) : Query :=
  {| q_path := collectionName;
     q_constraints :=
       map (fun '(field, operator, v) => Where field operator v) conditions
       ++ (if truthy_str orderByField then [OrderBy (default "" orderByField)] else [])
       ++ (if truthy_num limitCount then [Limit (default O limitCount)] else []) |}.

End Requests.

(** ** Real-time listeners *)

(** What [onSnapshot] registers with the client: the target and the two
    handlers.  A document listener is handed document snapshots, a query
    listener is handed query snapshots. *)
Inductive Listener (St : Type) : Type :=
| DocListener (ref : DocRef) (next : DocSnap -> M St unit) (err : error -> M St unit)
| QueryListener (q : Query) (next : list DocSnap -> M St unit) (err : error -> M St unit).

Arguments DocListener {St} _ _ _.
Arguments QueryListener {St} _ _ _.

(** The page at run time: the world and the listeners the client holds.
    [next_handle] names the next registration. *)
Record Runtime (St : Type) : Type := {
  world : World St;
  listeners : gmap nat (Listener St);
  next_handle : nat
}.

Arguments world {St} _.
Arguments listeners {St} _.
Arguments next_handle {St} _.

Section Listeners.

Context {St : Type}.

(** [onSnapshot(target, next, error)] registers the listener and returns
    the function that removes it, here the handle to pass to
    [unsubscribe]. *)
Definition onSnapshot (l : Listener St) (rt : Runtime St) : nat * Runtime St :=
  (next_handle rt,
   {| world := world rt;
      listeners := <[next_handle rt := l]> (listeners rt);
      next_handle := S (next_handle rt) |}).

Definition unsubscribe (h : nat) (rt : Runtime St) : Runtime St :=
  {| world := world rt;
     listeners := delete h (listeners rt);
     next_handle := next_handle rt |}.

(** A handler runs to completion in the world; what it returns or throws
    goes nowhere. *)
Definition run_handler (m : M St unit) (rt : Runtime St) : Runtime St :=
  {| world := snd (m (world rt));
     listeners := listeners rt;
     next_handle := next_handle rt |}.

(** The client delivers a document snapshot to listener [h]. *)
Definition deliver_doc (h : nat) (d : DocSnap) (rt : Runtime St) : Runtime St :=
  match listeners rt !! h with
  | Some (DocListener _ next _) => run_handler (next d) rt
  | _ => rt
  end.

(** The client delivers a query snapshot to listener [h]. *)
Definition deliver_docs (h : nat) (ds : list DocSnap) (rt : Runtime St)
  : Runtime St :=
  match listeners rt !! h with
  | Some (QueryListener _ next _) => run_handler (next ds) rt
  | _ => rt
  end.

(** The listen fails: the client calls the error handler of listener [h]
    and drops the listener; no further event reaches it. *)
Definition deliver_error (h : nat) (e : error) (rt : Runtime St) : Runtime St :=
  match listeners rt !! h with
  | Some (DocListener _ _ err) | Some (QueryListener _ _ err) =>
      unsubscribe h (run_handler (err e) rt)
  | None => rt
  end.

(** The SDK can refuse the reference or a condition by throwing before
    [onSnapshot] is reached, and nothing is registered then; the two
    definitions describe the calls it accepts. *)
Definition listenToDocument (collectionName documentId : string)
    (callback : option record -> M St unit) : Runtime St -> nat * Runtime St :=
  let docRef := doc collectionName documentId in
  let unsubscribe :=
    onSnapshot
      (DocListener docRef
         (fun d =>
            if snap_exists d then callback (Some (with_id d))
            else callback None)
         (fun error => console_error "Error listening to document:" error)) in
  unsubscribe.

Definition listenToCollection (collectionName : string)
    (callback : list record -> M St unit) (conditions : list condition)
  : Runtime St -> nat * Runtime St :=
  let q := collection collectionName in
  let q :=
    if (0 <? length conditions)%nat then
      let constraints :=
        map (fun '(field, operator, v) => Where field operator v) conditions in
      query q constraints
    else q in
  let unsubscribe :=
    onSnapshot
      (QueryListener q
         (fun querySnapshot =>
            let documents := [] in
            let documents := push_each querySnapshot documents in
            callback documents)
         (fun error => console_error "Error listening to collection:" error)) in
  unsubscribe.

End Listeners.

(** ** A reference store *)

(** An in-memory implementation of the client interface: what the hosted
    store is documented to do with each request, over scalar fields.
    Collections map document identifiers to stored objects; [faults] is the
    script of the transport, one entry per request, [Some e] making that
    request throw [e] (an exhausted script means a healthy transport).
    A document reference with an empty identifier is refused; collection
    names are not validated. *)
Module MemStore.

Record t : Type := {
  docs : gmap string (gmap string record);
  faults : list (option error)
}.

Definition coll (s : t) (path : string) : gmap string record :=
  default ∅ (docs s !! path).

Definition put (path id : string) (r : record) (s : t) : t :=
  {| docs := <[path := <[id := r]> (coll s path)]> (docs s); faults := faults s |}.

(** Every request goes through the transport first. *)
Definition transport {A} (run : t -> (error + A) * t) : Call t A :=
  fun s =>
    match faults s with
    | Some e :: rest => (inl e, {| docs := docs s; faults := rest |})
    | None :: rest => run {| docs := docs s; faults := rest |}
    | [] => run s
    end.

Definition invalid_argument : error :=
  FirestoreError "invalid-argument" "the query is not supported".

Definition not_found : error :=
  FirestoreError "not-found" "no document to update".

Definition invalid_reference : error :=
  FirestoreError "invalid-argument" "Invalid document reference.".

(** A reference with an empty identifier is refused before anything is
    sent: the transport is not used and the store is not touched. *)
Definition checked {A} (ref : DocRef) (request : Call t A) : Call t A :=
  fun s =>
    if String.eqb (ref_id ref) "" then (inl invalid_reference, s)
    else request s.

(** *** Ordering and filtering of values *)

Definition rank (v : value) : nat :=
  match v with
  | VNull => 0
  | VBool _ => 1
  | VNum _ => 2
  | VStr _ => 3
  end.

Definition value_compare (a b : value) : comparison :=
  match a, b with
  | VBool x, VBool y =>
      match x, y with
      | false, true => Lt
      | true, false => Gt
      | _, _ => Eq
      end
  | VNum x, VNum y => Z.compare x y
  | VStr x, VStr y => String.compare x y
  | _, _ => Nat.compare (rank a) (rank b)
  end.

Definition value_leb (a b : value) : bool :=
  if value_compare a b is Gt then false else true.

(** Does [actual] satisfy [operator expected]?  [None] for an operator the
    reference store does not implement.  Inequalities only match values of
    the same type. *)
Definition satisfies (operator : string) (actual expected : value) : option bool :=
  let same := Nat.eqb (rank actual) (rank expected) in
  let cmp := value_compare actual expected in
  if String.eqb operator "==" then Some (bool_decide (actual = expected))
  else if String.eqb operator "!=" then Some (negb (bool_decide (actual = expected)))
  else if String.eqb operator "<" then Some (same && if cmp is Lt then true else false)
  else if String.eqb operator "<=" then Some (same && if cmp is Gt then false else true)
  else if String.eqb operator ">" then Some (same && if cmp is Gt then true else false)
  else if String.eqb operator ">=" then Some (same && if cmp is Lt then false else true)
  else None.

Definition valid (c : constraint) : bool :=
  match c with
  | Where _ operator _ => if satisfies operator VNull VNull is Some _ then true else false
  | OrderBy field => negb (String.eqb field "")
  | Limit n => negb (Nat.eqb n 0)
  end.

Definition has_field (field : string) (d : string * record) : bool :=
  if d.2 !! field is Some _ then true else false.

(** A [where] keeps the documents that have the field with a matching value. *)
Definition keeps (c : constraint) (d : string * record) : bool :=
  match c with
  | Where field operator expected =>
      match d.2 !! field with
      | Some actual => default false (satisfies operator actual expected)
      | None => false
      end
  | OrderBy field => has_field field d
  | Limit _ => true
  end.

Definition field_leb (field : string) (a b : record) : bool :=
  match a !! field, b !! field with
  | Some x, Some y => value_leb x y
  | _, _ => false
  end.

Fixpoint insert_by (field : string) (d : string * record)
    (l : list (string * record)) : list (string * record) :=
  match l with
  | [] => [d]
  | d' :: l' =>
      if field_leb field d.2 d'.2 then d :: l
      else d' :: insert_by field d l'
  end.

Definition sort_by (field : string) (l : list (string * record))
  : list (string * record) :=
  fold_right (insert_by field) [] l.

(** The first [orderBy] is the primary key: sort by the later ones first. *)
Definition order (cs : list constraint) (l : list (string * record))
  : list (string * record) :=
  fold_right
    (fun c l => if c is OrderBy field then sort_by field l else l) l cs.

(** The last [limit] of a query is the one in force. *)
Definition limit_of (cs : list constraint) : option nat :=
  fold_left (fun o c => if c is Limit n then Some n else o) cs None.

Definition cap (cs : list constraint) (l : list (string * record))
  : list (string * record) :=
  if limit_of cs is Some n then take n l else l.

Definition run_query (cs : list constraint) (l : list (string * record))
  : list (string * record) :=
  cap cs (order cs (filter (fun d => forallb (fun c => keeps c d) cs) l)).

Definition snapshot (d : string * record) : DocSnap :=
  {| snap_id := d.1; snap_data := Some d.2 |}.

(** *** The requests *)

(** The identifier the store generates: not empty and not in use in the
    collection. *)
Definition new_id (s : t) (path : string) : string :=
  fresh ({[ "" ]} ∪ dom (coll s path)).

Definition mem_addDoc (q : Query) (data : record) : Call t DocRef :=
  transport (fun s =>
    let id := new_id s (q_path q) in
    (inr (doc (q_path q) id), put (q_path q) id data s)).

Definition mem_setDoc (ref : DocRef) (data : record) : Call t unit :=
  checked ref
    (transport (fun s => (inr tt, put (ref_path ref) (ref_id ref) data s))).

Definition mem_getDoc (ref : DocRef) : Call t DocSnap :=
  checked ref
    (transport (fun s =>
       (inr {| snap_id := ref_id ref;
               snap_data := coll s (ref_path ref) !! ref_id ref |}, s))).

Definition mem_getDocs (q : Query) : Call t (list DocSnap) :=
  transport (fun s =>
    if forallb valid (q_constraints q) then
      (inr (map snapshot
              (run_query (q_constraints q) (map_to_list (coll s (q_path q))))), s)
    else (inl invalid_argument, s)).

(** An update merges the given fields into the stored object and fails on
    a document that does not exist. *)
Definition mem_updateDoc (ref : DocRef) (data : record) : Call t unit :=
  checked ref
    (transport (fun s =>
       match coll s (ref_path ref) !! ref_id ref with
       | Some stored => (inr tt, put (ref_path ref) (ref_id ref) (data ∪ stored) s)
       | None => (inl not_found, s)
       end)).

Definition mem_deleteDoc (ref : DocRef) : Call t unit :=
  checked ref
    (transport (fun s =>
       (inr tt,
        {| docs := <[ref_path ref := delete (ref_id ref) (coll s (ref_path ref))]> (docs s);
           faults := faults s |}))).

#[global] Instance firestore : Firestore t := {
  addDoc := mem_addDoc;
  setDoc := mem_setDoc;
  getDoc := mem_getDoc;
  getDocs := mem_getDocs;
  updateDoc := mem_updateDoc;
  deleteDoc := mem_deleteDoc
}.

(** A world over the reference store. *)
Definition boot (documents : gmap string (gmap string record))
    (script : list (option error)) (time : nat -> Z) : World t :=
  {| db := {| docs := documents; faults := script |};
     clock := time; ticks := 0; console := [] |}.

End MemStore.

(** ** The dashboard: [src/pages/DashboardPage.jsx] *)

(** The five controlled inputs of the form. *)
Record FormData : Type := {
  studentId : string;
  name : string;
  course : string;
  yearLevel : string;
  email : string
}.

(** The component's state variables.  [editingId] is [None] for [null]. *)
Record View : Type := {
  students : list record;
  loading : bool;
  showModal : bool;
  editingId : option string;
  formData : FormData
}.

Definition emptyForm : FormData :=
  {| studentId := ""; name := ""; course := ""; yearLevel := ""; email := "" |}.

(** The state right after the first render. *)
Definition initialView : View :=
  {| students := []; loading := true; showModal := false; editingId := None;
     formData := emptyForm |}.

(** The form state as the object handed to the facade. *)
Definition form_object (f : FormData) : record :=
  {[ "studentId" := VStr (studentId f); "name" := VStr (name f);
     "course" := VStr (course f); "yearLevel" := VStr (yearLevel f);
     "email" := VStr (email f) ]}.

(** [student.field] for a text field of a loaded row (the empty string when
    the row has no such text). *)
Definition text_of (student : record) (field : string) : string :=
  if student !! field is Some (VStr s) then s else "".

Definition setStudents (data : list record) (v : View) : View :=
  {| students := data; loading := loading v; showModal := showModal v;
     editingId := editingId v; formData := formData v |}.

Definition setLoading (b : bool) (v : View) : View :=
  {| students := students v; loading := b; showModal := showModal v;
     editingId := editingId v; formData := formData v |}.

Definition setShowModal (b : bool) (v : View) : View :=
  {| students := students v; loading := loading v; showModal := b;
     editingId := editingId v; formData := formData v |}.

Definition setEditingId (o : option string) (v : View) : View :=
  {| students := students v; loading := loading v; showModal := showModal v;
     editingId := o; formData := formData v |}.

Definition setFormData (f : FormData) (v : View) : View :=
  {| students := students v; loading := loading v; showModal := showModal v;
     editingId := editingId v; formData := f |}.

Section Dashboard.

Context {St : Type} `{!Firestore St}.

Definition loadStudents (v : View) (w : World St) : View * World St :=
  let v := setLoading true v in
  match getAllDocuments "students" w with
  | (inr data, w) => (setLoading false (setStudents data v), w)
  | (inl error, w) =>
      let w := snd ((console_error "Error loading students:" error;;
                     alert "Failed to load students") w) in
      (setLoading false v, w)
  end.

Definition resetForm (v : View) : View :=
  setShowModal false (setEditingId None (setFormData emptyForm v)).

Definition handleSubmit (v : View) (w : World St) : View * World St :=
  match
    (if truthy_str (editingId v) then
       (updateDocument "students" (default "" (editingId v))
          (form_object (formData v));;
        alert "Student updated successfully!")
     else
       (addDocument "students" (form_object (formData v));;
        alert "Student added successfully!")) w
  with
  | (inr _, w) =>
      let v := resetForm v in
      loadStudents v w
  | (inl error, w) =>
      let w := snd ((console_error "Error saving student:" error;;
                     alert "Failed to save student") w) in
      (v, w)
  end.

(** [setEditingId(student.id)] and the five form fields of the row.  The
    identifier of a row is the text in its [id] field; a row whose [id] is
    not text has none. *)
Definition handleEdit (student : record) (v : View) : View :=
  let v := setEditingId
             (if student !! "id" is Some (VStr s) then Some s else None) v in
  let v := setFormData
             {| studentId := text_of student "studentId";
                name := text_of student "name";
                course := text_of student "course";
                yearLevel := text_of student "yearLevel";
                email := text_of student "email" |} v in
  setShowModal true v.

End Dashboard.

(** ** Vocabulary of the properties and sample worlds *)

(** Consecutive objects all carry [field], in non-decreasing order. *)
Fixpoint ascending_by (field : string) (rs : list record) : bool :=
  match rs with
  | r1 :: (r2 :: _) as rest => MemStore.field_leb field r1 r2 && ascending_by field rest
  | _ => true
  end.

(** Both stored documents carry [field] and the first does not come after
    the second. *)
Definition le_on (field : string) (a b : string * record) : Prop :=
  MemStore.field_leb field a.2 b.2 = true.


(** Field [f] of the object an operation returned, if it returned one. *)
Definition field_of (res : error + option record) (f : string) : option value :=
  match res with
  | inr (Some r) => r !! f
  | _ => None
  end.

(** Console entries written by code of the facade's caller. *)
Definition reached_caller (ev : event) : bool :=
  match ev with
  | CallbackDoc _ | CallbackDocs _ => true
  | _ => false
  end.

Module Sample.

(** A clock that has moved on by a quarter of a second at every reading. *)
Definition time (n : nat) : Z := 1700000600000 + 250 * Z.of_nat n.

(** A clock that reads the same millisecond every time. *)
Definition frozen (n : nat) : Z := 1700000000000.

Definition unavailable : error :=
  FirestoreError "unavailable" "The service is currently unavailable.".

Definition juan : record :=
  {[ "studentId" := VStr "2021-12345"; "name" := VStr "Juan Dela Cruz";
     "course" := VStr "BS Computer Science"; "yearLevel" := VStr "2nd Year";
     "email" := VStr "juan@g.msuiit.edu.ph";
     "createdAt" := VStr "2023-09-01T08:00:00.000Z";
     "updatedAt" := VStr "2023-11-14T22:13:20.000Z" ]}.

Definition maria : record :=
  {[ "studentId" := VStr "2020-00007"; "name" := VStr "Maria Santos";
     "course" := VStr "BS Biology"; "yearLevel" := VStr "3rd Year";
     "email" := VStr "maria@g.msuiit.edu.ph";
     "createdAt" := VStr "2023-09-01T08:05:00.000Z";
     "updatedAt" := VStr "2023-11-14T22:13:20.000Z" ]}.

Definition two_students : gmap string (gmap string record) :=
  {[ "students" := {[ "s1" := juan; "s2" := maria ]} ]}.

(** Two students stored, a healthy transport. *)
Definition campus : World MemStore.t := MemStore.boot two_students [] time.

(** The same store behind a transport that fails the next request. *)
Definition offline : World MemStore.t :=
  MemStore.boot two_students [Some unavailable] time.



(** A store whose only student carries an empty [id] field of its own. *)
Definition blank : record := <["id" := VStr ""]> juan.

Definition registry : World MemStore.t :=
  MemStore.boot {[ "students" := {[ "s1" := blank ]} ]} [] time.

(** The form open on the first student, with the year level changed. *)
Definition editing_juan : View :=
  {| students := []; loading := false; showModal := true; editingId := Some "s1";
     formData := {| studentId := "2021-12345"; name := "Juan Dela Cruz";
                    course := "BS Computer Science"; yearLevel := "3rd Year";
                    email := "juan@g.msuiit.edu.ph" |} |}.

(** The two students again, with a clock that does not advance. *)
Definition stalled : World MemStore.t := MemStore.boot two_students [] frozen.

(** A page with no listener yet, and callbacks that leave a console entry
    each time they are called. *)
Definition page : Runtime MemStore.t :=
  {| world := campus; listeners := ∅; next_handle := 0 |}.

Definition watch_one (o : option record) : M MemStore.t unit := emit (CallbackDoc o).

Definition watch_all (documents : list record) : M MemStore.t unit :=
  emit (CallbackDocs documents).

End Sample.

(** ** The rest of the dashboard *)

(** The five controls of the form, by their [name] attribute. *)
Inductive control : Type :=
| StudentIdInput
| NameInput
| CourseInput
| YearLevelSelect
| EmailInput.

#[global] Instance control_eq_dec : EqDecision control.
Proof. solve_decision. Defined.

Definition control_name (k : control) : string :=
  match k with
  | StudentIdInput => "studentId"
  | NameInput => "name"
  | CourseInput => "course"
  | YearLevelSelect => "yearLevel"
  | EmailInput => "email"
  end.

(** [setFormData(prev => ({ ...prev, [name]: value }))] for the change event
    of control [k]. *)
Definition handleInputChange (k : control) (value : string) (v : View) : View :=
  let prev := formData v in
  setFormData
    match k with
    | StudentIdInput =>
        {| studentId := value; name := name prev; course := course prev;
           yearLevel := yearLevel prev; email := email prev |}
    | NameInput =>
        {| studentId := studentId prev; name := value; course := course prev;
           yearLevel := yearLevel prev; email := email prev |}
    | CourseInput =>
        {| studentId := studentId prev; name := name prev; course := value;
           yearLevel := yearLevel prev; email := email prev |}
    | YearLevelSelect =>
        {| studentId := studentId prev; name := name prev; course := course prev;
           yearLevel := value; email := email prev |}
    | EmailInput =>
        {| studentId := studentId prev; name := name prev; course := course prev;
           yearLevel := yearLevel prev; email := value |}
    end v.

(** [formData[name]] for the name of control [k]. *)
Definition form_field (k : control) (f : FormData) : string :=
  match k with
  | StudentIdInput => studentId f
  | NameInput => name f
  | CourseInput => course f
  | YearLevelSelect => yearLevel f
  | EmailInput => email f
  end.

(** What the table area shows. *)
Inductive Body : Type :=
| LoadingNotice
| NoStudentsNotice
| Table (rows : list record).

(** [loading ? ... : students.length === 0 ? ... : <table>] *)
Definition body (v : View) : Body :=
  if loading v then LoadingNotice
  else if Nat.eqb (length (students v)) 0 then NoStudentsNotice
  else Table (students v).

(** [Total Students: {students.length}] *)
Definition total (v : View) : nat := length (students v).

(** The heading of the modal, when the modal is shown. *)
Definition modalTitle (v : View) : option string :=
  if showModal v then
    Some (if truthy_str (editingId v) then "Edit Student" else "Add New Student")
  else None.

Section DashboardEvents.

Context {St : Type} `{!Firestore St}.

(** [confirmed] is the answer of [window.confirm]. *)
Definition handleDelete (id : string) (confirmed : bool) (v : View) (w : World St)
  : View * World St :=
  if confirmed then
    match (deleteDocument "students" id;;
           alert "Student deleted successfully!") w with
    | (inr _, w) => loadStudents v w
    | (inl error, w) =>
        let w := snd ((console_error "Error deleting student:" error;;
                       alert "Failed to delete student") w) in
        (v, w)
    end
  else (v, w).

(** What the user can do on the page.  A click on a row's button carries
    the row, respectively the text of its identifier and the answer given
    to the confirmation. *)
Inductive ui_event : Type :=
| ClickAddStudent
| ClickEdit (student : record)
| ClickDelete (id : string) (confirmed : bool)
| Change (k : control) (value : string)
| Submit
| Cancel.

(** The form, with its inputs and its two buttons, is rendered only while
    the modal is shown.  The buttons of the rows are taken to be there at
    any time and for any row, which allows every click the table can
    offer. *)
Definition rendered (ev : ui_event) (v : View) : bool :=
  match ev with
  | Change _ _ | Submit | Cancel => showModal v
  | _ => true
  end.

(** The handler bound to each event. *)
Definition fire (ev : ui_event) (v : View) (w : World St) : View * World St :=
  match ev with
  | ClickAddStudent => (setShowModal true v, w)
  | ClickEdit student => (handleEdit student v, w)
  | ClickDelete id confirmed => handleDelete id confirmed v w
  | Change k value => (handleInputChange k value v, w)
  | Submit => handleSubmit v w
  | Cancel => (resetForm v, w)
  end.

(** A session: each event runs its handler to completion; an event on a
    control that is not on the page does nothing. *)
Definition play (evs : list ui_event) (start : View * World St) : View * World St :=
  fold_left (fun st ev => if rendered ev st.1 then fire ev st.1 st.2 else st) evs start.

(** The effect run once after the first render. *)
Definition mount (w : World St) : View * World St := loadStudents initialView w.

End DashboardEvents.

(** The records a read of the whole collection returns from the reference
    store. *)
Definition listed (s : MemStore.t) (c : string) : list record :=
  map with_id (map MemStore.snapshot (map_to_list (MemStore.coll s c))).

(** * Properties *)

(** ** The ISO format on known instants *)

Example iso_epoch : Iso.toISOString 0 = "1970-01-01T00:00:00.000Z".
Proof. reflexivity. Qed.

Example iso_2023 : Iso.toISOString 1700000000000 = "2023-11-14T22:13:20.000Z".
Proof. vm_compute. reflexivity. Qed.

Example iso_leap : Iso.toISOString 951782400000 = "2000-02-29T00:00:00.000Z".
Proof. vm_compute. reflexivity. Qed.

Example iso_before_epoch : Iso.toISOString (-1) = "1969-12-31T23:59:59.999Z".
Proof. vm_compute. reflexivity. Qed.

(** ** Objects and snapshots *)

Lemma spread_empty (data : record) : spread data ∅ = data.
Proof. unfold spread. apply (right_id_L ∅ (∪)). Qed.

Lemma push_each_map (ds : list DocSnap) (documents : list record) :
  push_each ds documents = documents ++ map with_id ds.
Proof.
  unfold push_each. revert documents.
  induction ds as [|d ds IH]; intros documents; simpl.
  - by rewrite app_nil_r.
  - rewrite IH. by rewrite <- app_assoc.
Qed.

Lemma push_each_nil (ds : list DocSnap) : push_each ds [] = map with_id ds.
Proof. apply push_each_map. Qed.



(** A stored field survives the annotation, whatever its name. *)
Lemma with_id_stored (d : DocSnap) (stored : record) (f : string) (v : value) :
  snap_data d = Some stored -> stored !! f = Some v -> with_id d !! f = Some v.
Proof.
  intros Hd Hf. unfold with_id, spread. rewrite Hd. simpl.
  by apply lookup_union_Some_l.
Qed.

(** Without a stored [id], the annotation is the document identifier. *)
Lemma with_id_fresh (d : DocSnap) (stored : record) :
  snap_data d = Some stored -> stored !! "id" = None ->
  with_id d !! "id" = Some (VStr (snap_id d)).
Proof.
  intros Hd Hf. unfold with_id, spread. rewrite Hd. simpl.
  rewrite lookup_union_r by done. apply lookup_singleton_eq.
Qed.




(** The constraints [queryDocuments] collects from its conditions. *)
Lemma wheres_map (conditions : list condition) (constraints : list constraint) :
  fold_left (fun constraints '(field, operator, v) =>
               constraints ++ [Where field operator v]) conditions constraints
  = constraints ++ map (fun '(field, operator, v) => Where field operator v) conditions.
Proof.
  revert constraints.
  induction conditions as [|[[f o] v] cs IH]; intros constraints; simpl.
  - by rewrite app_nil_r.
  - rewrite IH. by rewrite <- app_assoc.
Qed.

(** ** What each facade operation does with the client's answer *)

Section FacadeFacts.

Context {St : Type} `{!Firestore St}.

Lemma addDocument_raises c data (w : World St) e :
  fst (addDocument c data w) = inl e <->
  fst (addDoc (collection c) (stamped data w) (db w)) = inl e.
Proof.
  unfold addDocument, try_catch, bind, await, new_Date_toISOString, stamped.
  simpl. rewrite spread_empty.
  destruct (addDoc _ _ (db w)) as [[e'|ref] s']; simpl; split; congruence.
Qed.

Lemma setDocument_raises c id data (w : World St) e :
  fst (setDocument c id data w) = inl e <->
  fst (setDoc (doc c id) (stamped data w) (db w)) = inl e.
Proof.
  unfold setDocument, try_catch, bind, await, new_Date_toISOString, stamped.
  simpl. rewrite spread_empty.
  destruct (setDoc _ _ (db w)) as [[e'|[]] s']; simpl; split; congruence.
Qed.

Lemma getDocument_spec c id (w : World St) :
  fst (getDocument c id w) =
  match fst (getDoc (doc c id) (db w)) with
  | inl e => inl e
  | inr d => inr (if snap_exists d then Some (with_id d) else None)
  end.
Proof.
  unfold getDocument, try_catch, bind, await. simpl.
  destruct (getDoc _ (db w)) as [[e'|d] s']; simpl; [done|].
  by destruct (snap_exists d).
Qed.

Lemma getAllDocuments_spec c (w : World St) :
  fst (getAllDocuments c w) =
  match fst (getDocs (collection c) (db w)) with
  | inl e => inl e
  | inr ds => inr (map with_id ds)
  end.
Proof.
  unfold getAllDocuments, try_catch, bind, await. simpl.
  destruct (getDocs _ (db w)) as [[e'|ds] s']; simpl; [done|].
  by rewrite push_each_nil.
Qed.

Lemma queryDocuments_spec c conditions orderByField limitCount (w : World St) :
  fst (queryDocuments c conditions orderByField limitCount w) =
  match fst (getDocs (built c conditions orderByField limitCount) (db w)) with
  | inl e => inl e
  | inr ds => inr (map with_id ds)
  end.
Proof.
  unfold queryDocuments, try_catch, bind, await, built, query, collection.
  simpl. rewrite wheres_map. simpl.
  replace (if truthy_num limitCount
           then (if truthy_str orderByField
                 then map (fun '(field, operator, v) => Where field operator v) conditions
                      ++ [OrderBy (default "" orderByField)]
                 else map (fun '(field, operator, v) => Where field operator v) conditions)
                ++ [Limit (default O limitCount)]
           else if truthy_str orderByField
                then map (fun '(field, operator, v) => Where field operator v) conditions
                     ++ [OrderBy (default "" orderByField)]
                else map (fun '(field, operator, v) => Where field operator v) conditions)
    with (map (fun '(field, operator, v) => Where field operator v) conditions
          ++ (if truthy_str orderByField then [OrderBy (default "" orderByField)] else [])
          ++ (if truthy_num limitCount then [Limit (default O limitCount)] else [])).
  2: { destruct (truthy_str orderByField), (truthy_num limitCount);
       simpl; by rewrite ?app_nil_r, <- ?app_assoc. }
  destruct (getDocs _ (db w)) as [[e'|ds] s']; simpl; [done|].
  by rewrite push_each_nil.
Qed.

Lemma updateDocument_raises c id data (w : World St) e :
  fst (updateDocument c id data w) = inl e <->
  fst (updateDoc (doc c id) (touched data w) (db w)) = inl e.
Proof.
  unfold updateDocument, try_catch, bind, await, new_Date_toISOString, touched.
  simpl. rewrite spread_empty.
  destruct (updateDoc _ _ (db w)) as [[e'|[]] s']; simpl; split; congruence.
Qed.

Lemma deleteDocument_raises c id (w : World St) e :
  fst (deleteDocument c id w) = inl e <->
  fst (deleteDoc (doc c id) (db w)) = inl e.
Proof.
  unfold deleteDocument, try_catch, bind, await. simpl.
  destruct (deleteDoc _ (db w)) as [[e'|[]] s']; simpl; split; congruence.
Qed.

End FacadeFacts.

(** ** The facade over the reference store *)

Lemma coll_put (s : MemStore.t) (c id : string) (r : record) :
  MemStore.coll (MemStore.put c id r s) c !! id = Some r.
Proof.
  unfold MemStore.coll, MemStore.put. simpl.
  rewrite lookup_insert_eq. simpl. apply lookup_insert_eq.
Qed.

Lemma transport_healthy {A} (run : MemStore.t -> (error + A) * MemStore.t)
    (s : MemStore.t) :
  MemStore.faults s = [] -> MemStore.transport run s = run s.
Proof. intros H. unfold MemStore.transport. by rewrite H. Qed.

Lemma checked_valid {A} (c id : string) (request : Call MemStore.t A)
    (s : MemStore.t) :
  id <> "" -> MemStore.checked (doc c id) request s = request s.
Proof.
  intros Hne. unfold MemStore.checked. simpl.
  by destruct (String.eqb_spec id "").
Qed.


Lemma getDocument_mem (c id : string) (w : World MemStore.t) :
  fst (getDocument c id w) =
  if String.eqb id "" then inl MemStore.invalid_reference
  else
    match MemStore.faults (db w) with
    | Some e :: _ => inl e
    | _ =>
        match MemStore.coll (db w) c !! id with
        | None => inr None
        | Some stored => inr (Some (spread stored {[ "id" := VStr id ]}))
        end
    end.
Proof.
  rewrite getDocument_spec.
  simpl. unfold MemStore.mem_getDoc, MemStore.checked, MemStore.transport. simpl.
  destruct (String.eqb id ""); [done|].
  destruct (MemStore.faults (db w)) as [|[e|] rest]; simpl; try done.
  - unfold snap_exists, with_id; simpl.
    by destruct (MemStore.coll (db w) c !! id).
  - unfold snap_exists, with_id, MemStore.coll; simpl.
    by destruct (default ∅ (MemStore.docs (db w) !! c) !! id).
Qed.

Lemma getDocument_healthy (c id : string) (w : World MemStore.t) :
  MemStore.faults (db w) = [] ->
  id <> "" ->
  fst (getDocument c id w) =
  inr (match MemStore.coll (db w) c !! id with
       | Some stored => Some (spread stored {[ "id" := VStr id ]})
       | None => None
       end).
Proof.
  intros H Hne. rewrite getDocument_mem.
  destruct (String.eqb_spec id ""); [done|].
  rewrite H. by destruct (MemStore.coll (db w) c !! id).
Qed.

Lemma updateDocument_healthy (c id : string) (data stored : record)
    (w : World MemStore.t) :
  MemStore.faults (db w) = [] ->
  id <> "" ->
  MemStore.coll (db w) c !! id = Some stored ->
  updateDocument c id data w =
  (inr tt,
   {| db := MemStore.put c id (touched data w ∪ stored) (db w);
      clock := clock w; ticks := S (ticks w);
      console := console w ++ [ConsoleLog ["Document updated:"; id]] |}).
Proof.
  intros H Hne Hs.
  unfold updateDocument, try_catch, bind, await, new_Date_toISOString, touched.
  simpl. rewrite spread_empty.
  unfold MemStore.mem_updateDoc. rewrite checked_valid by done.
  rewrite transport_healthy by done.
  simpl. by rewrite Hs.
Qed.

(** ** Claims about reading *)

(** C1: [queryDocuments] called with no condition, no ordering field and no
    limit returns what [getAllDocuments] returns for the same collection:
    the same records in the same order, or the same error, leaving the
    client in the same state; when the read succeeds the two calls leave the
    same world altogether. *)
Theorem query_without_conditions_is_getAll {St} `{!Firestore St}
    (c : string) (w : World St) :
  fst (queryDocuments c [] None None w) = fst (getAllDocuments c w) /\
  db (snd (queryDocuments c [] None None w)) = db (snd (getAllDocuments c w)) /\
  (forall documents,
      fst (getAllDocuments c w) = inr documents ->
      queryDocuments c [] None None w = getAllDocuments c w).
Proof.
  unfold queryDocuments, getAllDocuments, try_catch, bind, await, query, collection.
  simpl.
  destruct (getDocs _ (db w)) as [[e|ds] s']; simpl.
  - split; [done|]. split; [done|]. intros documents; discriminate.
  - done.
Qed.

Lemma query_without_conditions_is_getAll_witness :
  fst (getAllDocuments "students" Sample.campus)
  = inr [with_id {| snap_id := "s1"; snap_data := Some Sample.juan |};
         with_id {| snap_id := "s2"; snap_data := Some Sample.maria |}] /\
  queryDocuments "students" [] None None Sample.campus
  = getAllDocuments "students" Sample.campus.
Proof.
  assert (H : fst (getAllDocuments "students" Sample.campus)
              = inr [with_id {| snap_id := "s1"; snap_data := Some Sample.juan |};
                     with_id {| snap_id := "s2"; snap_data := Some Sample.maria |}])
    by (vm_compute; reflexivity).
  split; [exact H|].
  exact (proj2 (proj2 (query_without_conditions_is_getAll "students" Sample.campus)) _ H).
Defined.






(** C6: each of the seven operations makes one request to the client, and
    throws [e] exactly when that request threw [e]: the error of the client
    reaches the caller as it is, and the facade adds no error of its own. *)
Theorem facade_rethrows_client_error {St} `{!Firestore St}
    (w : World St) (e : error) :
  (forall c data,
      fst (addDoc (collection c) (stamped data w) (db w)) = inl e <->
      fst (addDocument c data w) = inl e) /\
  (forall c id data,
      fst (setDoc (doc c id) (stamped data w) (db w)) = inl e <->
      fst (setDocument c id data w) = inl e) /\
  (forall c id,
      fst (getDoc (doc c id) (db w)) = inl e <->
      fst (getDocument c id w) = inl e) /\
  (forall c,
      fst (getDocs (collection c) (db w)) = inl e <->
      fst (getAllDocuments c w) = inl e) /\
  (forall c conditions orderByField limitCount,
      fst (getDocs (built c conditions orderByField limitCount) (db w)) = inl e <->
      fst (queryDocuments c conditions orderByField limitCount w) = inl e) /\
  (forall c id data,
      fst (updateDoc (doc c id) (touched data w) (db w)) = inl e <->
      fst (updateDocument c id data w) = inl e) /\
  (forall c id,
      fst (deleteDoc (doc c id) (db w)) = inl e <->
      fst (deleteDocument c id w) = inl e).
Proof.
  repeat apply conj.
  - intros c data. symmetry. apply addDocument_raises.
  - intros c id data. symmetry. apply setDocument_raises.
  - intros c id. rewrite getDocument_spec.
    destruct (fst (getDoc (doc c id) (db w))) as [e'|d]; split; congruence.
  - intros c. rewrite getAllDocuments_spec.
    destruct (fst (getDocs (collection c) (db w))) as [e'|ds]; split; congruence.
  - intros c conditions orderByField limitCount. rewrite queryDocuments_spec.
    destruct (fst (getDocs _ (db w))) as [e'|ds]; split; congruence.
  - intros c id data. symmetry. apply updateDocument_raises.
  - intros c id. symmetry. apply deleteDocument_raises.
Qed.

Lemma facade_rethrows_client_error_witness :
  fst (addDocument "students" Sample.juan Sample.offline) = inl Sample.unavailable /\
  fst (queryDocuments "students" [("name", "in", VStr "x")] None None Sample.campus)
  = inl MemStore.invalid_argument /\
  fst (updateDocument "students" "nobody" ∅ Sample.campus) = inl MemStore.not_found /\
  fst (deleteDocument "students" "s1" Sample.offline) = inl Sample.unavailable.
Proof.
  repeat apply conj.
  - apply (proj1 (facade_rethrows_client_error Sample.offline Sample.unavailable)).
    vm_compute. reflexivity.
  - apply (facade_rethrows_client_error Sample.campus MemStore.invalid_argument).
    vm_compute. reflexivity.
  - apply (facade_rethrows_client_error Sample.campus MemStore.not_found).
    vm_compute. reflexivity.
  - apply (facade_rethrows_client_error Sample.offline Sample.unavailable).
    vm_compute. reflexivity.
Defined.

(** ** Claims about listeners *)

(** C2, as stated, fails: a listener created by [listenToCollection] or
    [listenToDocument] whose listen fails leaves one entry on the console
    and nothing else; no code of the caller runs, so the caller never
    learns of the failure. *)
Lemma listener_error_never_reaches_caller :
  let sub := listenToCollection "students" Sample.watch_all [] Sample.page in
  let sub1 := listenToDocument "students" "s1" Sample.watch_one Sample.page in
  console (world (deliver_error sub.1 Sample.unavailable sub.2))
  = [ConsoleError "Error listening to collection:" Sample.unavailable] /\
  existsb reached_caller
    (console (world (deliver_error sub.1 Sample.unavailable sub.2))) = false /\
  console (world (deliver_error sub1.1 Sample.unavailable sub1.2))
  = [ConsoleError "Error listening to document:" Sample.unavailable] /\
  existsb reached_caller
    (console (world (deliver_error sub1.1 Sample.unavailable sub1.2))) = false.
Proof. vm_compute. repeat split. Qed.

(** C2, amended: when the listen of a subscription fails, the facade's error
    handler runs and not the callback: whatever the callback is, the world
    afterwards is the world before with one [console.error] entry added.
    The listener is gone from the client, a snapshot delivered later changes
    nothing, and nothing has been registered in its place. *)
Theorem listener_error_is_logged_only {St : Type} :
  (forall (c id : string) (callback : option record -> M St unit)
          (rt : Runtime St) (e : error),
      let sub := listenToDocument c id callback rt in
      let after := deliver_error sub.1 e sub.2 in
      world after = snd (console_error "Error listening to document:" e (world rt)) /\
      listeners after = delete sub.1 (listeners rt) /\
      forall d, deliver_doc sub.1 d after = after) /\
  (forall (c : string) (callback : list record -> M St unit)
          (conditions : list condition) (rt : Runtime St) (e : error),
      let sub := listenToCollection c callback conditions rt in
      let after := deliver_error sub.1 e sub.2 in
      world after = snd (console_error "Error listening to collection:" e (world rt)) /\
      listeners after = delete sub.1 (listeners rt) /\
      forall ds, deliver_docs sub.1 ds after = after).
Proof.
  split.
  - intros c id callback rt e sub after.
    assert (Hafter : after =
      {| world := snd (console_error "Error listening to document:" e (world rt));
         listeners := delete (next_handle rt) (listeners rt);
         next_handle := S (next_handle rt) |}).
    { subst after sub. unfold listenToDocument, onSnapshot, deliver_error. simpl.
      rewrite lookup_insert_eq. unfold unsubscribe, run_handler. simpl.
      by rewrite delete_insert_eq. }
    rewrite Hafter. simpl. repeat split.
    intros d. unfold deliver_doc. simpl. by rewrite lookup_delete_eq.
  - intros c callback conditions rt e sub after.
    assert (Hafter : after =
      {| world := snd (console_error "Error listening to collection:" e (world rt));
         listeners := delete (next_handle rt) (listeners rt);
         next_handle := S (next_handle rt) |}).
    { subst after sub. unfold listenToCollection, onSnapshot, deliver_error. simpl.
      rewrite lookup_insert_eq. unfold unsubscribe, run_handler. simpl.
      by rewrite delete_insert_eq. }
    rewrite Hafter. simpl. repeat split.
    intros ds. unfold deliver_docs. simpl. by rewrite lookup_delete_eq.
Qed.

(** ** Claims about writing *)







(** C7, as stated, fails twice.  An update made while the clock still reads
    the millisecond of the previous write leaves [updatedAt] as it was, so
    the update time does not strictly increase; and an [updatedAt] present
    in the partial data does not come back: the stamp does. *)
Lemma update_timestamp_need_not_increase :
  field_of (fst (getDocument "students" "s1" Sample.stalled)) "updatedAt"
  = Some (VStr "2023-11-14T22:13:20.000Z") /\
  field_of
    (fst ((updateDocument "students" "s1" {[ "email" := VStr "jdc@g.msuiit.edu.ph" ]};;
           getDocument "students" "s1") Sample.stalled)) "updatedAt"
  = Some (VStr "2023-11-14T22:13:20.000Z") /\
  String.ltb "2023-11-14T22:13:20.000Z" "2023-11-14T22:13:20.000Z" = false /\
  field_of
    (fst ((updateDocument "students" "s1"
             {[ "updatedAt" := VStr "2030-01-01T00:00:00.000Z" ]};;
           getDocument "students" "s1") Sample.campus)) "updatedAt"
  = Some (VStr "2023-11-14T22:23:20.000Z").
Proof. vm_compute. repeat split. Qed.

(** C7, amended: for a record [r] that [getDocument] returns, an update with
    the partial data [u] followed by [getDocument] returns a record in which
    every field of [u] other than [updatedAt] has the value [u] gives it,
    every field that [u] lacks, other than [updatedAt], has the value it
    had in [r], and [updatedAt] is the clock as read during the update. *)
Theorem update_merges_and_restamps
    (c id : string) (u r : record) (w : World MemStore.t) :
  MemStore.faults (db w) = [] ->
  fst (getDocument c id w) = inr (Some r) ->
  exists r',
    fst ((updateDocument c id u;; getDocument c id) w) = inr (Some r') /\
    (forall f v, f <> "updatedAt" -> u !! f = Some v -> r' !! f = Some v) /\
    (forall f, f <> "updatedAt" -> u !! f = None -> r' !! f = r !! f) /\
    r' !! "updatedAt" = Some (VStr (Iso.toISOString (clock w (ticks w)))).
Proof.
  intros H Hr.
  assert (Hne : id <> "").
  { intros ->. by rewrite getDocument_mem in Hr. }
  rewrite getDocument_healthy in Hr by done.
  destruct (MemStore.coll (db w) c !! id) as [stored|] eqn:Hs; [|done].
  injection Hr as <-.
  exists (spread (touched u w ∪ stored) {[ "id" := VStr id ]}).
  split.
  { unfold bind at 1. rewrite (updateDocument_healthy c id u stored) by done.
    rewrite getDocument_healthy by done. simpl. by rewrite coll_put. }
  unfold spread, touched. split; [|split].
  - intros f v Hf Hu. apply lookup_union_Some_l, lookup_union_Some_l.
    by rewrite lookup_insert_ne.
  - intros f Hf Hu.
    rewrite <- (assoc_L (∪)). apply lookup_union_r.
    by rewrite lookup_insert_ne.
  - apply lookup_union_Some_l, lookup_union_Some_l, lookup_insert_eq.
Qed.

Lemma update_merges_and_restamps_witness :
  exists r',
    fst ((updateDocument "students" "s1" {[ "email" := VStr "jdc@g.msuiit.edu.ph" ]};;
          getDocument "students" "s1") Sample.campus) = inr (Some r') /\
    (forall f v, f <> "updatedAt" ->
                 ({[ "email" := VStr "jdc@g.msuiit.edu.ph" ]} : record) !! f = Some v ->
                 r' !! f = Some v) /\
    (forall f, f <> "updatedAt" ->
               ({[ "email" := VStr "jdc@g.msuiit.edu.ph" ]} : record) !! f = None ->
               r' !! f = (<["id" := VStr "s1"]> Sample.juan : record) !! f) /\
    r' !! "updatedAt"
    = Some (VStr (Iso.toISOString (clock Sample.campus (ticks Sample.campus)))).
Proof.
  apply (update_merges_and_restamps "students" "s1"
           {[ "email" := VStr "jdc@g.msuiit.edu.ph" ]}
           (<["id" := VStr "s1"]> Sample.juan) Sample.campus).
  - reflexivity.
  - vm_compute. reflexivity.
Defined.

(** ** Ordering and capping in the reference store *)

Section Ordering.

Variable field : string.

Lemma value_leb_total (a b : value) :
  MemStore.value_leb a b = true \/ MemStore.value_leb b a = true.
Proof.
  unfold MemStore.value_leb.
  destruct a as [|x|x|x], b as [|y|y|y]; simpl; auto.
  - destruct x, y; auto.
  - rewrite (Z.compare_antisym x y). destruct (Z.compare x y); simpl; auto.
  - rewrite (String.compare_antisym x y). destruct (String.compare y x); simpl; auto.
Qed.

Lemma le_on_total (a b : string * record) :
  MemStore.has_field field a = true -> MemStore.has_field field b = true ->
  le_on field a b \/ le_on field b a.
Proof.
  unfold MemStore.has_field, le_on, MemStore.field_leb.
  destruct (a.2 !! field) as [x|], (b.2 !! field) as [y|]; try discriminate.
  intros _ _. apply value_leb_total.
Qed.

Lemma insert_by_has (d : string * record) (l : list (string * record)) :
  MemStore.has_field field d = true ->
  Forall (fun x => MemStore.has_field field x = true) l ->
  Forall (fun x => MemStore.has_field field x = true) (MemStore.insert_by field d l).
Proof.
  intros Hd Hl. induction Hl as [|d' l' Hd' Hl' IH]; simpl.
  - by constructor.
  - destruct (MemStore.field_leb field d.2 d'.2); repeat constructor; auto.
Qed.

Lemma insert_by_hd (a d : string * record) (l : list (string * record)) :
  HdRel (le_on field) a l -> le_on field a d -> HdRel (le_on field) a (MemStore.insert_by field d l).
Proof.
  intros Hl Had. destruct l as [|d' l']; simpl.
  - by constructor.
  - apply HdRel_inv in Hl.
    destruct (MemStore.field_leb field d.2 d'.2); by constructor.
Qed.

Lemma insert_by_sorted (d : string * record) (l : list (string * record)) :
  MemStore.has_field field d = true ->
  Forall (fun x => MemStore.has_field field x = true) l ->
  Sorted (le_on field) l -> Sorted (le_on field) (MemStore.insert_by field d l).
Proof.
  intros Hd Hl Hs. induction Hs as [|d' l' Hs' IH Hhd]; simpl.
  - by repeat constructor.
  - apply Forall_cons_1 in Hl as [Hd' Hl'].
    destruct (MemStore.field_leb field d.2 d'.2) eqn:E.
    + constructor; [by constructor|]. by constructor.
    + constructor; [by apply IH|].
      apply insert_by_hd; [done|].
      destruct (le_on_total d d' Hd Hd') as [H|H]; [|done].
      unfold le_on in H. congruence.
Qed.

Lemma sort_by_has (l : list (string * record)) :
  Forall (fun x => MemStore.has_field field x = true) l ->
  Forall (fun x => MemStore.has_field field x = true) (MemStore.sort_by field l).
Proof.
  intros Hl. induction Hl as [|d l Hd Hl IH]; simpl; [constructor|].
  by apply insert_by_has.
Qed.

Lemma sort_by_sorted (l : list (string * record)) :
  Forall (fun x => MemStore.has_field field x = true) l ->
  Sorted (le_on field) (MemStore.sort_by field l).
Proof.
  intros Hl. induction Hl as [|d l Hd Hl IH]; simpl; [constructor|].
  apply insert_by_sorted; [done| by apply sort_by_has |done].
Qed.

Lemma take_sorted (n : nat) (l : list (string * record)) :
  Sorted (le_on field) l -> Sorted (le_on field) (take n l).
Proof.
  intros Hs. revert n. induction Hs as [|d l Hs IH Hhd]; intros [|n]; simpl;
    try constructor; auto.
  destruct Hhd as [|d' l' Hdd']; destruct n; simpl; by constructor.
Qed.

(** The annotation keeps the order on [field]. *)
Lemma with_id_le_on (a b : string * record) :
  le_on field a b ->
  MemStore.field_leb field (with_id (MemStore.snapshot a)) (with_id (MemStore.snapshot b))
  = true.
Proof.
  unfold le_on, MemStore.field_leb.
  destruct (a.2 !! field) as [x|] eqn:Ea; [|discriminate].
  destruct (b.2 !! field) as [y|] eqn:Eb; [|discriminate].
  intros H.
  rewrite (with_id_stored (MemStore.snapshot a) a.2 field x) by done.
  by rewrite (with_id_stored (MemStore.snapshot b) b.2 field y).
Qed.

Lemma sorted_ascending (l : list (string * record)) :
  Sorted (le_on field) l ->
  ascending_by field (map with_id (map MemStore.snapshot l)) = true.
Proof.
  intros Hs. induction Hs as [|d l Hs IH Hhd]; [done|].
  destruct Hhd as [|d' l' Hdd']; [done|].
  change (MemStore.field_leb field (with_id (MemStore.snapshot d))
            (with_id (MemStore.snapshot d'))
          && ascending_by field (map with_id (map MemStore.snapshot (d' :: l'))) = true).
  rewrite IH. by rewrite with_id_le_on.
Qed.

End Ordering.

(** Conditions add no ordering and no limit to a query. *)
Lemma order_wheres (conditions : list condition) (rest : list constraint)
    (l : list (string * record)) :
  MemStore.order
    (map (fun '(field, operator, v) => Where field operator v) conditions ++ rest) l
  = MemStore.order rest l.
Proof.
  unfold MemStore.order. rewrite fold_right_app.
  induction conditions as [|[[f o] v] cs IH]; simpl; done.
Qed.

Lemma limit_of_last (cs : list constraint) (n : nat) :
  MemStore.limit_of (cs ++ [Limit n]) = Some n.
Proof. unfold MemStore.limit_of. by rewrite fold_left_app. Qed.

Lemma run_query_capped (cs : list constraint) (n : nat) (l : list (string * record)) :
  (length (MemStore.run_query (cs ++ [Limit n]) l) <= n)%nat.
Proof.
  unfold MemStore.run_query, MemStore.cap. rewrite limit_of_last.
  rewrite length_take. lia.
Qed.

Lemma kept_have_field (cs : list constraint) (f : string)
    (l : list (string * record)) :
  In (OrderBy f) cs ->
  Forall (fun x => MemStore.has_field f x = true)
    (filter (fun d => forallb (fun c => MemStore.keeps c d) cs) l).
Proof.
  intros Hin. apply Forall_forall. intros d Hd.
  apply list_elem_of_filter in Hd as [Hd _].
  apply Is_true_true in Hd. rewrite forallb_forall in Hd.
  apply (Hd (OrderBy f) Hin).
Qed.

Lemma run_query_ordered (conditions : list condition) (f : string)
    (lim : list constraint) (l : list (string * record)) :
  (lim = [] \/ exists n, lim = [Limit n]) ->
  Sorted (le_on f)
    (MemStore.run_query
       (map (fun '(field, operator, v) => Where field operator v) conditions
        ++ [OrderBy f] ++ lim) l).
Proof.
  intros Hlim. unfold MemStore.run_query.
  assert (Hsorted : forall kept,
             Forall (fun x => MemStore.has_field f x = true) kept ->
             Sorted (le_on f)
               (MemStore.order
                  (map (fun '(field, operator, v) => Where field operator v) conditions
                   ++ [OrderBy f] ++ lim) kept)).
  { intros kept Hkept. rewrite order_wheres.
    destruct Hlim as [->|[n ->]]; simpl; by apply sort_by_sorted. }
  unfold MemStore.cap.
  destruct (MemStore.limit_of _); [apply take_sorted|];
    apply Hsorted, kept_have_field; rewrite !in_app_iff; right; left; by left.
Qed.

Lemma queryDocuments_mem (c : string) conditions orderByField limitCount
    (w : World MemStore.t) (documents : list record) :
  fst (queryDocuments c conditions orderByField limitCount w) = inr documents ->
  exists l,
    documents =
    map with_id
      (map MemStore.snapshot
         (MemStore.run_query
            (q_constraints (built c conditions orderByField limitCount)) l)).
Proof.
  rewrite queryDocuments_spec. simpl.
  unfold MemStore.mem_getDocs, MemStore.transport.
  destruct (MemStore.faults (db w)) as [|[e|] rest]; simpl; [|discriminate|];
    destruct (forallb MemStore.valid _); simpl; try discriminate;
    intros [= <-]; eauto.
Qed.

(** ** Claims about queries *)

(** C4, as stated, fails at [n = 0]: a limit of zero is no limit, and the
    query returns every record of the collection.  An empty ordering field
    is no ordering field either: the records come back as the store lists
    them, not in ascending order of a field of that name. *)
Lemma limit_zero_returns_everything :
  fst (queryDocuments "students" [] None (Some 0%nat) Sample.campus)
  = inr [<["id" := VStr "s1"]> Sample.juan; <["id" := VStr "s2"]> Sample.maria] /\
  ~ (length [<["id" := VStr "s1"]> Sample.juan; <["id" := VStr "s2"]> Sample.maria]
     <= 0)%nat /\
  fst (queryDocuments "students" [] (Some "") None Sample.campus)
  = inr [<["id" := VStr "s1"]> Sample.juan; <["id" := VStr "s2"]> Sample.maria] /\
  ascending_by ""
    [<["id" := VStr "s1"]> Sample.juan; <["id" := VStr "s2"]> Sample.maria] = false.
Proof.
  split; [vm_compute; reflexivity|]. split; [simpl; lia|].
  split; vm_compute; reflexivity.
Qed.

(** C4, amended: a query with a limit [n] of at least one returns at most
    [n] records, and a query with a non-empty ordering field returns its
    records in ascending order of that field.  A limit of zero and an empty
    ordering field are taken as not given. *)
Theorem query_caps_and_orders (c : string) (conditions : list condition)
    (orderByField : option string) (limitCount : option nat)
    (w : World MemStore.t) :
  (forall documents,
      fst (queryDocuments c conditions orderByField limitCount w) = inr documents ->
      (forall n, limitCount = Some n -> (0 < n)%nat -> (length documents <= n)%nat) /\
      (forall f, orderByField = Some f -> f <> "" -> ascending_by f documents = true)) /\
  queryDocuments c conditions orderByField (Some 0%nat) w
  = queryDocuments c conditions orderByField None w /\
  queryDocuments c conditions (Some "") limitCount w
  = queryDocuments c conditions None limitCount w.
Proof.
  split; [|split; reflexivity].
  intros documents H.
  apply queryDocuments_mem in H as [l ->]. unfold built. simpl. split.
  - intros n -> Hn.
    assert (Ht : truthy_num (Some n) = true)
      by (simpl; destruct n; [lia|done]).
    rewrite Ht. simpl. rewrite !length_map, !app_assoc. apply run_query_capped.
  - intros f -> Hf.
    assert (Ht : truthy_str (Some f) = true).
    { simpl. destruct (String.eqb_spec f ""); [done|done]. }
    rewrite Ht. simpl. apply sorted_ascending.
    apply (run_query_ordered conditions f).
    destruct (truthy_num limitCount); eauto.
Qed.

Lemma query_caps_and_orders_witness :
  fst (queryDocuments "students" [("yearLevel", "!=", VStr "1st Year")]
         (Some "course") (Some 1%nat) Sample.campus)
  = inr [<["id" := VStr "s2"]> Sample.maria] /\
  (length [<["id" := VStr "s2"]> Sample.maria] <= 1)%nat /\
  fst (queryDocuments "students" [] (Some "course") None Sample.campus)
  = inr [<["id" := VStr "s2"]> Sample.maria; <["id" := VStr "s1"]> Sample.juan] /\
  ascending_by "course"
    [<["id" := VStr "s2"]> Sample.maria; <["id" := VStr "s1"]> Sample.juan] = true.
Proof.
  assert (H1 : fst (queryDocuments "students" [("yearLevel", "!=", VStr "1st Year")]
                      (Some "course") (Some 1%nat) Sample.campus)
               = inr [<["id" := VStr "s2"]> Sample.maria])
    by (vm_compute; reflexivity).
  assert (H2 : fst (queryDocuments "students" [] (Some "course") None Sample.campus)
               = inr [<["id" := VStr "s2"]> Sample.maria;
                      <["id" := VStr "s1"]> Sample.juan])
    by (vm_compute; reflexivity).
  split; [exact H1|]. split; [|split; [exact H2|]].
  - apply (proj1 (proj1 (query_caps_and_orders _ _ _ _ _) _ H1) 1%nat);
      [reflexivity | lia].
  - apply (proj2 (proj1 (query_caps_and_orders _ _ _ _ _) _ H2) "course");
      [reflexivity | discriminate].
Defined.

(** ** Claims about the dashboard *)

Lemma loadStudents_keeps_form {St} `{!Firestore St} (v : View) (w : World St) :
  formData (loadStudents v w).1 = formData v /\
  editingId (loadStudents v w).1 = editingId v /\
  showModal (loadStudents v w).1 = showModal v.
Proof.
  unfold loadStudents.
  by destruct (getAllDocuments "students" w) as [[e|data] w'].
Qed.

Lemma handleSubmit_edit {St} `{!Firestore St} (v : View) (w : World St) (id : string) :
  editingId v = Some id -> id <> "" ->
  handleSubmit v w =
  match updateDocument "students" id (form_object (formData v)) w with
  | (inr _, w1) =>
      loadStudents (resetForm v) (snd (alert "Student updated successfully!" w1))
  | (inl e, w1) =>
      (v, snd ((console_error "Error saving student:" e;;
                alert "Failed to save student") w1))
  end.
Proof.
  intros Hid Hne. unfold handleSubmit. rewrite Hid. simpl.
  destruct (String.eqb_spec id "") as [|_]; [done|]. simpl.
  unfold bind.
  by destruct (updateDocument "students" id (form_object (formData v)) w)
    as [[e|[]] w1].
Qed.

Lemma handleSubmit_create {St} `{!Firestore St} (v : View) (w : World St) :
  truthy_str (editingId v) = false ->
  handleSubmit v w =
  match addDocument "students" (form_object (formData v)) w with
  | (inr _, w1) =>
      loadStudents (resetForm v) (snd (alert "Student added successfully!" w1))
  | (inl e, w1) =>
      (v, snd ((console_error "Error saving student:" e;;
                alert "Failed to save student") w1))
  end.
Proof.
  intros Hf. unfold handleSubmit. rewrite Hf.
  unfold bind.
  by destruct (addDocument "students" (form_object (formData v)) w)
    as [[e|newId] w1].
Qed.

(** C8, as stated, fails when the editing identifier is the empty string,
    which is not [null]: a row whose stored object has an empty [id] field
    of its own is loaded with that field as its identifier; editing it and
    submitting the form adds a new record and updates none. *)
Lemma empty_editing_id_adds_a_record :
  let loaded := loadStudents initialView Sample.registry in
  let editing := handleEdit (hd ∅ (students loaded.1)) loaded.1 in
  let submitted := handleSubmit editing loaded.2 in
  editingId editing = Some "" /\
  console submitted.2
  = [ConsoleLog ["Document added with ID:"; "0"]; Alert "Student added successfully!"] /\
  size (MemStore.coll (db submitted.2) "students") = 2%nat /\
  MemStore.coll (db submitted.2) "students" !! "s1" = Some Sample.blank.
Proof. vm_compute. repeat split. Qed.

(** C8, amended: a submission with an editing identifier that is neither
    [null] nor empty calls [updateDocument] with that identifier and the
    form fields; otherwise it calls [addDocument] with the form fields.
    When the call succeeds the form is emptied, the editing identifier is
    [null], the modal is closed and the list is loaded again; when it
    throws, the state of the view is what it was. *)
Theorem handleSubmit_saves_then_resets {St} `{!Firestore St}
    (v : View) (w : World St) :
  (forall id, editingId v = Some id -> id <> "" ->
      match updateDocument "students" id (form_object (formData v)) w with
      | (inr _, w1) =>
          handleSubmit v w
          = loadStudents (resetForm v) (snd (alert "Student updated successfully!" w1)) /\
          formData (handleSubmit v w).1 = emptyForm /\
          editingId (handleSubmit v w).1 = None /\
          showModal (handleSubmit v w).1 = false
      | (inl e, w1) => (handleSubmit v w).1 = v
      end) /\
  (truthy_str (editingId v) = false ->
      match addDocument "students" (form_object (formData v)) w with
      | (inr _, w1) =>
          handleSubmit v w
          = loadStudents (resetForm v) (snd (alert "Student added successfully!" w1)) /\
          formData (handleSubmit v w).1 = emptyForm /\
          editingId (handleSubmit v w).1 = None /\
          showModal (handleSubmit v w).1 = false
      | (inl e, w1) => (handleSubmit v w).1 = v
      end).
Proof.
  split.
  - intros id Hid Hne. rewrite (handleSubmit_edit v w id) by done.
    destruct (updateDocument "students" id (form_object (formData v)) w)
      as [[e|[]] w1]; [done|].
    split; [done|]. apply loadStudents_keeps_form.
  - intros Hf. rewrite (handleSubmit_create v w) by done.
    destruct (addDocument "students" (form_object (formData v)) w)
      as [[e|newId] w1]; [done|].
    split; [done|]. apply loadStudents_keeps_form.
Qed.

Lemma handleSubmit_saves_then_resets_witness :
  (handleSubmit Sample.editing_juan Sample.campus).1
  = {| students := [<["id" := VStr "s1"]>
                      (<["updatedAt" := VStr "2023-11-14T22:23:20.000Z"]>
                         (<["yearLevel" := VStr "3rd Year"]> Sample.juan));
                    <["id" := VStr "s2"]> Sample.maria];
       loading := false; showModal := false; editingId := None;
       formData := emptyForm |} /\
  match updateDocument "students" "s1"
          (form_object (formData Sample.editing_juan)) Sample.campus with
  | (inr _, w1) =>
      handleSubmit Sample.editing_juan Sample.campus
      = loadStudents (resetForm Sample.editing_juan)
          (snd (alert "Student updated successfully!" w1)) /\
      formData (handleSubmit Sample.editing_juan Sample.campus).1 = emptyForm /\
      editingId (handleSubmit Sample.editing_juan Sample.campus).1 = None /\
      showModal (handleSubmit Sample.editing_juan Sample.campus).1 = false
  | (inl e, w1) => (handleSubmit Sample.editing_juan Sample.campus).1 = Sample.editing_juan
  end.
Proof.
  split; [vm_compute; reflexivity|].
  apply (proj1 (handleSubmit_saves_then_resets Sample.editing_juan Sample.campus) "s1").
  - reflexivity.
  - discriminate.
Defined.

(** * Further properties of the facade *)

Lemma with_id_has_id (d : DocSnap) : is_Some (with_id d !! "id").
Proof.
  unfold with_id, spread. apply lookup_union_is_Some. right.
  rewrite lookup_singleton_eq. by eexists.
Qed.

(** The annotation adds [id] to the stored field names and nothing else. *)
Lemma with_id_dom (d : DocSnap) :
  dom (with_id d) = dom (default ∅ (snap_data d)) ∪ {[ "id" ]}.
Proof. unfold with_id, spread. by rewrite dom_union_L, dom_singleton_L. Qed.

Lemma in_map_with_id (ds : list DocSnap) (r : record) :
  r ∈ map with_id ds -> exists d, d ∈ ds /\ r = with_id d.
Proof.
  rewrite list_elem_of_In, in_map_iff. intros (d & <- & Hd).
  exists d. by rewrite list_elem_of_In.
Qed.

(** X1: every record a read returns has an [id] field: the record of
    [getDocument] when it is not [null], and each record in the lists of
    [getAllDocuments] and [queryDocuments]. *)
Theorem read_results_carry_id {St} `{!Firestore St} (w : World St) (r : record) :
  (forall c id, fst (getDocument c id w) = inr (Some r) -> is_Some (r !! "id")) /\
  (forall c documents,
      fst (getAllDocuments c w) = inr documents -> r ∈ documents ->
      is_Some (r !! "id")) /\
  (forall c conditions orderByField limitCount documents,
      fst (queryDocuments c conditions orderByField limitCount w) = inr documents ->
      r ∈ documents -> is_Some (r !! "id")).
Proof.
  repeat apply conj.
  - intros c id. rewrite getDocument_spec.
    destruct (fst (getDoc (doc c id) (db w))) as [e|d]; [discriminate|].
    destruct (snap_exists d); [|discriminate].
    intros [= <-]. apply with_id_has_id.
  - intros c documents. rewrite getAllDocuments_spec.
    destruct (fst (getDocs (collection c) (db w))) as [e|ds]; [discriminate|].
    intros [= <-] Hr. apply in_map_with_id in Hr as (d & _ & ->).
    apply with_id_has_id.
  - intros c conditions orderByField limitCount documents.
    rewrite queryDocuments_spec.
    destruct (fst (getDocs _ (db w))) as [e|ds]; [discriminate|].
    intros [= <-] Hr. apply in_map_with_id in Hr as (d & _ & ->).
    apply with_id_has_id.
Qed.

Lemma read_results_carry_id_witness :
  is_Some ((<["id" := VStr "s1"]> Sample.juan : record) !! "id").
Proof.
  apply (proj1 (read_results_carry_id Sample.campus (<["id" := VStr "s1"]> Sample.juan))
           "students" "s1").
  vm_compute. reflexivity.
Defined.

Lemma addDocument_console {St} `{!Firestore St} (c : string) (data : record)
    (w : World St) :
  console (snd (addDocument c data w)) =
  console w ++
  [match fst (addDocument c data w) with
   | inl e => ConsoleError "Error adding document:" e
   | inr id => ConsoleLog ["Document added with ID:"; id]
   end].
Proof.
  unfold addDocument, try_catch, bind, await, new_Date_toISOString. simpl.
  by destruct (addDoc _ _ (db w)) as [[e|ref] s'].
Qed.

Lemma updateDocument_console {St} `{!Firestore St} (c id : string) (data : record)
    (w : World St) :
  console (snd (updateDocument c id data w)) =
  console w ++
  [match fst (updateDocument c id data w) with
   | inl e => ConsoleError "Error updating document:" e
   | inr _ => ConsoleLog ["Document updated:"; id]
   end].
Proof.
  unfold updateDocument, try_catch, bind, await, new_Date_toISOString. simpl.
  by destruct (updateDoc _ _ (db w)) as [[e|[]] s'].
Qed.

(** X2: an operation writes one console entry when its request fails, a
    [console.error] with the operation's own message and the error it then
    throws.  A write that succeeds writes one [console.log] with the
    identifier; a read that succeeds writes nothing, except the notice for
    a record that does not exist.  Nothing already on the console is
    changed. *)
Theorem console_entries_of_operations {St} `{!Firestore St} (w : World St) :
  (forall c data,
      console (snd (addDocument c data w)) =
      console w ++
      [match fst (addDocument c data w) with
       | inl e => ConsoleError "Error adding document:" e
       | inr id => ConsoleLog ["Document added with ID:"; id]
       end]) /\
  (forall c id data,
      console (snd (setDocument c id data w)) =
      console w ++
      [match fst (setDocument c id data w) with
       | inl e => ConsoleError "Error setting document:" e
       | inr _ => ConsoleLog ["Document set with ID:"; id]
       end]) /\
  (forall c id,
      console (snd (getDocument c id w)) =
      console w ++
      match fst (getDocument c id w) with
      | inl e => [ConsoleError "Error getting document:" e]
      | inr None => [ConsoleLog ["No such document!"]]
      | inr (Some _) => []
      end) /\
  (forall c,
      console (snd (getAllDocuments c w)) =
      console w ++
      match fst (getAllDocuments c w) with
      | inl e => [ConsoleError "Error getting documents:" e]
      | inr _ => []
      end) /\
  (forall c conditions orderByField limitCount,
      console (snd (queryDocuments c conditions orderByField limitCount w)) =
      console w ++
      match fst (queryDocuments c conditions orderByField limitCount w) with
      | inl e => [ConsoleError "Error querying documents:" e]
      | inr _ => []
      end) /\
  (forall c id data,
      console (snd (updateDocument c id data w)) =
      console w ++
      [match fst (updateDocument c id data w) with
       | inl e => ConsoleError "Error updating document:" e
       | inr _ => ConsoleLog ["Document updated:"; id]
       end]) /\
  (forall c id,
      console (snd (deleteDocument c id w)) =
      console w ++
      [match fst (deleteDocument c id w) with
       | inl e => ConsoleError "Error deleting document:" e
       | inr _ => ConsoleLog ["Document deleted:"; id]
       end]).
Proof.
  repeat apply conj.
  - intros c data. apply addDocument_console.
  - intros c id data.
    unfold setDocument, try_catch, bind, await, new_Date_toISOString. simpl.
    by destruct (setDoc _ _ (db w)) as [[e|[]] s'].
  - intros c id.
    unfold getDocument, try_catch, bind, await. simpl.
    destruct (getDoc _ (db w)) as [[e|d] s']; simpl; [done|].
    destruct (snap_exists d); simpl; [|done]. by rewrite app_nil_r.
  - intros c.
    unfold getAllDocuments, try_catch, bind, await. simpl.
    destruct (getDocs _ (db w)) as [[e|ds] s']; simpl; [done|].
    by rewrite app_nil_r.
  - intros c conditions orderByField limitCount.
    unfold queryDocuments, try_catch, bind, await. simpl.
    destruct (getDocs _ (db w)) as [[e|ds] s']; simpl; [done|].
    by rewrite app_nil_r.
  - intros c id data. apply updateDocument_console.
  - intros c id.
    unfold deleteDocument, try_catch, bind, await. simpl.
    by destruct (deleteDoc _ (db w)) as [[e|[]] s'].
Qed.

(** * Further properties of the facade over the reference store *)


Lemma coll_transport (s : MemStore.t) (rest : list (option error)) (c : string) :
  MemStore.coll {| MemStore.docs := MemStore.docs s; MemStore.faults := rest |} c
  = MemStore.coll s c.
Proof. done. Qed.

Lemma keep_all (l : list (string * record)) :
  filter (fun d => forallb (fun c => MemStore.keeps c d) []) l = l.
Proof.
  induction l as [|d l IH]; [done|].
  rewrite filter_cons_True by done. by rewrite IH.
Qed.

Lemma getAllDocuments_mem (c : string) (w : World MemStore.t) :
  fst (getAllDocuments c w) =
  match MemStore.faults (db w) with
  | Some e :: _ => inl e
  | _ => inr (listed (db w) c)
  end.
Proof.
  rewrite getAllDocuments_spec. simpl.
  unfold MemStore.mem_getDocs, MemStore.transport, listed, MemStore.run_query.
  destruct (MemStore.faults (db w)) as [|[e|] rest]; simpl; [|done|];
    by rewrite keep_all.
Qed.

Lemma getAllDocuments_healthy (c : string) (w : World MemStore.t) :
  MemStore.faults (db w) = [] ->
  getAllDocuments c w = (inr (listed (db w) c), w).
Proof.
  intros H. unfold getAllDocuments, try_catch, bind, await. simpl.
  unfold MemStore.mem_getDocs. rewrite transport_healthy by done. simpl.
  rewrite push_each_nil. unfold listed, MemStore.run_query. simpl.
  rewrite keep_all. by destruct w.
Qed.

Lemma queryDocuments_rows (c : string) conditions orderByField limitCount
    (w : World MemStore.t) (documents : list record) :
  fst (queryDocuments c conditions orderByField limitCount w) = inr documents ->
  (forall e rest, MemStore.faults (db w) <> Some e :: rest) /\
  documents =
  map with_id
    (map MemStore.snapshot
       (MemStore.run_query
          (q_constraints (built c conditions orderByField limitCount))
          (map_to_list (MemStore.coll (db w) c)))).
Proof.
  rewrite queryDocuments_spec. simpl.
  unfold MemStore.mem_getDocs, MemStore.transport.
  destruct (MemStore.faults (db w)) as [|[e|] rest]; simpl; [|discriminate|];
    destruct (forallb MemStore.valid _); simpl; try discriminate;
    intros [= <-]; split; done.
Qed.











Lemma insert_by_elem (f : string) (d x : string * record)
    (l : list (string * record)) :
  x ∈ MemStore.insert_by f d l -> x = d \/ x ∈ l.
Proof.
  induction l as [|d' l IH]; simpl.
  - intros Hx. apply list_elem_of_singleton in Hx. by left.
  - destruct (MemStore.field_leb f d.2 d'.2).
    + intros Hx. apply elem_of_cons in Hx as [->|Hx]; [by left | by right].
    + intros Hx. apply elem_of_cons in Hx as [->|Hx].
      * right. by left.
      * destruct (IH Hx) as [->|Hin]; [by left | right; by right].
Qed.

Lemma sort_by_elem (f : string) (x : string * record) (l : list (string * record)) :
  x ∈ MemStore.sort_by f l -> x ∈ l.
Proof.
  induction l as [|d l IH]; simpl; [done|].
  intros Hx. apply insert_by_elem in Hx as [->|Hx]; [by left | right; by apply IH].
Qed.

Lemma order_elem (cs : list constraint) (x : string * record)
    (l : list (string * record)) :
  x ∈ MemStore.order cs l -> x ∈ l.
Proof.
  unfold MemStore.order. induction cs as [|c cs IH]; simpl; [done|].
  destruct c as [| field |]; auto. intros Hx. by apply IH, (sort_by_elem field).
Qed.

(** What a query keeps was in the collection and passes every constraint. *)
Lemma run_query_elem (cs : list constraint) (x : string * record)
    (l : list (string * record)) :
  x ∈ MemStore.run_query cs l ->
  x ∈ l /\ forall c, In c cs -> MemStore.keeps c x = true.
Proof.
  unfold MemStore.run_query, MemStore.cap. intros Hx.
  assert (Hx' : x ∈ MemStore.order cs
                      (filter (fun d => forallb (fun c => MemStore.keeps c d) cs) l)).
  { destruct (MemStore.limit_of cs); [by apply (subseteq_take n)|done]. }
  apply order_elem, list_elem_of_filter in Hx' as [Hk Hl].
  split; [done|]. apply Is_true_true in Hk. by rewrite forallb_forall in Hk.
Qed.

(** X7: over the reference store, every record [queryDocuments] returns is
    a record of the collection, annotated as [getAllDocuments] returns it,
    and its stored object has, for each condition, the field with a value
    that satisfies the operator.  A read of the whole collection in the
    same world succeeds and returns each of these records too. *)
Theorem query_returns_matching_records (c : string) (conditions : list condition)
    (orderByField : option string) (limitCount : option nat)
    (w : World MemStore.t) (documents : list record) :
  fst (queryDocuments c conditions orderByField limitCount w) = inr documents ->
  fst (getAllDocuments c w) = inr (listed (db w) c) /\
  forall r, r ∈ documents ->
    r ∈ listed (db w) c /\
    exists id stored,
      MemStore.coll (db w) c !! id = Some stored /\
      r = spread stored {[ "id" := VStr id ]} /\
      forall field operator v, In (field, operator, v) conditions ->
        exists actual,
          stored !! field = Some actual /\
          MemStore.satisfies operator actual v = Some true.
Proof.
  intros H. apply queryDocuments_rows in H as [Hf ->]. split.
  { rewrite getAllDocuments_mem.
    destruct (MemStore.faults (db w)) as [|[e|] rest]; try done.
    by destruct (Hf e rest). }
  intros r Hr.
  rewrite list_elem_of_In, in_map_iff in Hr. destruct Hr as (d & <- & Hd).
  rewrite in_map_iff in Hd. destruct Hd as ([id stored] & <- & Hin).
  rewrite <- list_elem_of_In in Hin.
  apply run_query_elem in Hin as [Hl Hk]. split.
  { unfold listed. rewrite list_elem_of_In. apply in_map, in_map.
    by rewrite <- list_elem_of_In. }
  exists id, stored. split; [by apply elem_of_map_to_list|]. split; [done|].
  intros field operator v Hc.
  specialize (Hk (Where field operator v)).
  assert (Hw : In (Where field operator v)
                 (q_constraints (built c conditions orderByField limitCount))).
  { unfold built. simpl. apply in_app_iff. left.
    apply in_map_iff. by exists (field, operator, v). }
  specialize (Hk Hw). simpl in Hk.
  destruct (stored !! field) as [actual|]; [|discriminate].
  exists actual. split; [done|].
  destruct (MemStore.satisfies operator actual v) as [[]|]; done.
Qed.

Lemma query_returns_matching_records_witness :
  fst (getAllDocuments "students" Sample.campus)
  = inr (listed (db Sample.campus) "students") /\
  forall r, r ∈ [<["id" := VStr "s2"]> Sample.maria] ->
    r ∈ listed (db Sample.campus) "students" /\
    exists id stored,
      MemStore.coll (db Sample.campus) "students" !! id = Some stored /\
      r = spread stored {[ "id" := VStr id ]} /\
      forall field operator v, In (field, operator, v) [("yearLevel", ">", VStr "2nd Year")] ->
        exists actual,
          stored !! field = Some actual /\
          MemStore.satisfies operator actual v = Some true.
Proof.
  apply (query_returns_matching_records "students"
           [("yearLevel", ">", VStr "2nd Year")] None None Sample.campus).
  vm_compute. reflexivity.
Defined.

(** * Further properties of the dashboard *)

Lemma form_object_lookup (k : control) (f : FormData) :
  form_object f !! control_name k = Some (VStr (form_field k f)).
Proof. destruct k; reflexivity. Qed.

Lemma form_object_other (f : FormData) (field : string) :
  (forall k, field <> control_name k) -> form_object f !! field = None.
Proof.
  intros H. unfold form_object.
  rewrite !lookup_insert_ne.
  - apply lookup_singleton_ne. exact (not_eq_sym (H EmailInput)).
  - exact (not_eq_sym (H YearLevelSelect)).
  - exact (not_eq_sym (H CourseInput)).
  - exact (not_eq_sym (H NameInput)).
  - exact (not_eq_sym (H StudentIdInput)).
Qed.

Lemma control_name_inj (k k' : control) : control_name k = control_name k' -> k = k'.
Proof. destruct k, k'; simpl; intros H; try done; discriminate. Qed.

Lemma control_name_cases (field : string) :
  (exists k, field = control_name k) \/ (forall k, field <> control_name k).
Proof.
  destruct (decide (field = "studentId")) as [->|H1]; [left; by exists StudentIdInput|].
  destruct (decide (field = "name")) as [->|H2]; [left; by exists NameInput|].
  destruct (decide (field = "course")) as [->|H3]; [left; by exists CourseInput|].
  destruct (decide (field = "yearLevel")) as [->|H4]; [left; by exists YearLevelSelect|].
  destruct (decide (field = "email")) as [->|H5]; [left; by exists EmailInput|].
  right. by intros [].
Qed.

Lemma form_field_change (k k' : control) (value : string) (v : View) :
  form_field k' (formData (handleInputChange k value v))
  = if decide (k = k') then value else form_field k' (formData v).
Proof. destruct k, k'; reflexivity. Qed.

(** X8: a change event on a control of the form replaces, in the object that
    a submission sends, the field of that control's name by the new value
    and leaves the four other fields as they were, as the spread
    [{ ...prev, [name]: value }] does; the list, the flags and the editing
    identifier are not touched. *)
Theorem handleInputChange_sets_one_field (k : control) (value : string) (v : View) :
  form_object (formData (handleInputChange k value v))
  = <[control_name k := VStr value]> (form_object (formData v)) /\
  students (handleInputChange k value v) = students v /\
  loading (handleInputChange k value v) = loading v /\
  showModal (handleInputChange k value v) = showModal v /\
  editingId (handleInputChange k value v) = editingId v.
Proof.
  split; [|done].
  apply map_eq. intros field.
  destruct (decide (field = control_name k)) as [->|Hne].
  - rewrite lookup_insert_eq, form_object_lookup, form_field_change.
    by rewrite decide_True.
  - rewrite lookup_insert_ne by done.
    destruct (control_name_cases field) as [[k' ->]|Hno].
    + rewrite !form_object_lookup, form_field_change.
      rewrite decide_False; [done|]. intros ->. by apply Hne.
    + by rewrite !form_object_other.
Qed.

(** X9: [loadStudents] always ends with the loading flag down and never
    touches the form, the editing identifier or the modal.  When the read
    succeeds the list is what was read; when it fails the list stays as it
    was, and the failure is written to the console and shown in an alert. *)
Theorem loadStudents_outcome {St} `{!Firestore St} (v : View) (w : World St) :
  loading (loadStudents v w).1 = false /\
  formData (loadStudents v w).1 = formData v /\
  editingId (loadStudents v w).1 = editingId v /\
  showModal (loadStudents v w).1 = showModal v /\
  match getAllDocuments "students" w with
  | (inr data, w1) =>
      students (loadStudents v w).1 = data /\ (loadStudents v w).2 = w1
  | (inl e, w1) =>
      students (loadStudents v w).1 = students v /\
      db (loadStudents v w).2 = db w1 /\
      console (loadStudents v w).2
      = console w1 ++ [ConsoleError "Error loading students:" e;
                       Alert "Failed to load students"]
  end.
Proof.
  unfold loadStudents.
  destruct (getAllDocuments "students" w) as [[e|data] w1]; simpl; [|done].
  repeat split. by rewrite <- app_assoc.
Qed.

Lemma handleDelete_confirmed {St} `{!Firestore St} (id : string) (v : View)
    (w : World St) :
  handleDelete id true v w =
  match deleteDocument "students" id w with
  | (inr _, w1) => loadStudents v (snd (alert "Student deleted successfully!" w1))
  | (inl e, w1) =>
      (v, snd ((console_error "Error deleting student:" e;;
                alert "Failed to delete student") w1))
  end.
Proof.
  unfold handleDelete, bind.
  by destruct (deleteDocument "students" id w) as [[e|[]] w1].
Qed.

Lemma handleDelete_keeps_form {St} `{!Firestore St} (id : string)
    (confirmed : bool) (v : View) (w : World St) :
  formData (handleDelete id confirmed v w).1 = formData v /\
  editingId (handleDelete id confirmed v w).1 = editingId v /\
  showModal (handleDelete id confirmed v w).1 = showModal v.
Proof.
  destruct confirmed; [|done]. rewrite handleDelete_confirmed.
  destruct (deleteDocument "students" id w) as [[e|[]] w1]; [done|].
  apply loadStudents_keeps_form.
Qed.

(** X10: a delete that the user does not confirm sends nothing and changes
    nothing.  A confirmed delete calls [deleteDocument] with the given
    identifier; when that succeeds the list is loaded again, when it throws
    the view stays as it was and the failure is shown in an alert.  In no
    case are the form, the editing identifier or the modal touched. *)
Theorem handleDelete_outcome {St} `{!Firestore St} (id : string) (v : View)
    (w : World St) :
  handleDelete id false v w = (v, w) /\
  match deleteDocument "students" id w with
  | (inr _, w1) =>
      handleDelete id true v w
      = loadStudents v (snd (alert "Student deleted successfully!" w1))
  | (inl e, w1) =>
      (handleDelete id true v w).1 = v /\
      db (handleDelete id true v w).2 = db w1 /\
      console (handleDelete id true v w).2
      = console w1 ++ [ConsoleError "Error deleting student:" e;
                       Alert "Failed to delete student"]
  end /\
  (forall confirmed,
      formData (handleDelete id confirmed v w).1 = formData v /\
      editingId (handleDelete id confirmed v w).1 = editingId v /\
      showModal (handleDelete id confirmed v w).1 = showModal v).
Proof.
  split; [done|]. split.
  - rewrite handleDelete_confirmed.
    destruct (deleteDocument "students" id w) as [[e|[]] w1]; simpl; [|done].
    repeat split. by rewrite <- app_assoc.
  - intros confirmed. apply handleDelete_keeps_form.
Qed.

Lemma handleSubmit_view {St} `{!Firestore St} (v : View) (w : World St) :
  (handleSubmit v w).1 = v \/
  exists w1, handleSubmit v w = loadStudents (resetForm v) w1.
Proof.
  unfold handleSubmit.
  destruct (truthy_str (editingId v)).
  - destruct ((updateDocument "students" (default "" (editingId v))
                 (form_object (formData v));;
               alert "Student updated successfully!") w) as [[e|x] w1];
      [by left | right; by exists w1].
  - destruct ((addDocument "students" (form_object (formData v));;
               alert "Student added successfully!") w) as [[e|x] w1];
      [by left | right; by exists w1].
Qed.

(** While the modal is closed the form is empty and nothing is being edited. *)
Lemma fire_keeps_closed_form_clean {St} `{!Firestore St} (ev : ui_event)
    (v : View) (w : World St) :
  rendered ev v = true ->
  (showModal v = false -> editingId v = None /\ formData v = emptyForm) ->
  showModal (fire ev v w).1 = false ->
  editingId (fire ev v w).1 = None /\ formData (fire ev v w).1 = emptyForm.
Proof.
  intros Hr Hv. destruct ev as [|student|id confirmed|k value| |]; simpl in *.
  - discriminate.
  - discriminate.
  - destruct (handleDelete_keeps_form id confirmed v w) as (-> & -> & ->).
    intros H. split; by apply Hv.
  - rewrite Hr. discriminate.
  - destruct (handleSubmit_view v w) as [->|[w1 ->]].
    + rewrite Hr. discriminate.
    + destruct (loadStudents_keeps_form (resetForm v) w1) as (-> & -> & _). done.
  - done.
Qed.

Lemma play_keeps_closed_form_clean {St} `{!Firestore St} (evs : list ui_event)
    (st : View * World St) :
  (showModal st.1 = false -> editingId st.1 = None /\ formData st.1 = emptyForm) ->
  showModal (play evs st).1 = false ->
  editingId (play evs st).1 = None /\ formData (play evs st).1 = emptyForm.
Proof.
  revert st. unfold play.
  induction evs as [|ev evs IH]; intros st Hst; simpl; [done|].
  apply IH. destruct (rendered ev st.1) eqn:Hr; [|done].
  by apply fire_keeps_closed_form_clean.
Qed.

(** X11: in every state the page reaches from its first load, whatever the
    user does and whatever the requests answer, a closed modal means an
    empty form and no editing identifier.  So the [Add Student] button
    always opens an empty form headed [Add New Student]. *)
Theorem closed_modal_has_clean_form {St} `{!Firestore St}
    (evs : list ui_event) (w : World St) :
  showModal (play evs (mount w)).1 = false ->
  editingId (play evs (mount w)).1 = None /\
  formData (play evs (mount w)).1 = emptyForm /\
  let opened := fire ClickAddStudent (play evs (mount w)).1 (play evs (mount w)).2 in
  modalTitle opened.1 = Some "Add New Student" /\
  formData opened.1 = emptyForm.
Proof.
  intros Hclosed.
  assert (H : editingId (play evs (mount w)).1 = None /\
              formData (play evs (mount w)).1 = emptyForm).
  { apply play_keeps_closed_form_clean; [|done].
    unfold mount. intros _.
    by destruct (loadStudents_keeps_form initialView w) as (-> & -> & _). }
  destruct H as [He Hf]. repeat split; try done.
  unfold modalTitle. simpl. by rewrite He.
Qed.

Lemma closed_modal_has_clean_form_witness :
  let session :=
    [ClickEdit (<["id" := VStr "s1"]> Sample.juan);
     Change EmailInput "jdc@g.msuiit.edu.ph"; Cancel] in
  editingId (play session (mount Sample.campus)).1 = None /\
  formData (play session (mount Sample.campus)).1 = emptyForm /\
  let opened := fire ClickAddStudent (play session (mount Sample.campus)).1
                  (play session (mount Sample.campus)).2 in
  modalTitle opened.1 = Some "Add New Student" /\
  formData opened.1 = emptyForm.
Proof.
  apply (closed_modal_has_clean_form
           [ClickEdit (<["id" := VStr "s1"]> Sample.juan);
            Change EmailInput "jdc@g.msuiit.edu.ph"; Cancel] Sample.campus).
  vm_compute. reflexivity.
Defined.

(** X12: after the first load the page shows the table of the records read,
    or the notice for an empty collection when none was read, with their
    number as the total.  When the read fails the page shows that same
    notice with a total of zero, after an alert. *)
Theorem first_load_shows {St} `{!Firestore St} (w : World St) :
  match getAllDocuments "students" w with
  | (inr data, w1) =>
      total (mount w).1 = length data /\
      body (mount w).1 = (if data is [] then NoStudentsNotice else Table data)
  | (inl e, w1) =>
      total (mount w).1 = 0%nat /\
      body (mount w).1 = NoStudentsNotice /\
      last (console (mount w).2) = Some (Alert "Failed to load students")
  end.
Proof.
  unfold mount, loadStudents, total, body.
  destruct (getAllDocuments "students" w) as [[e|data] w1]; simpl.
  - repeat split. apply last_snoc.
  - split; [done|]. by destruct data.
Qed.

(** X16: a submission whose request throws leaves three entries: the
    facade's [console.error], the view's [console.error] with the same
    error, and one alert of the failure.  No notice of success is shown and
    no further request is sent: the client is left as the failed request
    left it. *)
Theorem failed_submit_trace {St} `{!Firestore St}
    (v : View) (w : World St) (e : error) :
  (forall id, editingId v = Some id -> id <> "" ->
      fst (updateDocument "students" id (form_object (formData v)) w) = inl e ->
      db (handleSubmit v w).2
      = db (snd (updateDocument "students" id (form_object (formData v)) w)) /\
      console (handleSubmit v w).2
      = console w ++ [ConsoleError "Error updating document:" e;
                      ConsoleError "Error saving student:" e;
                      Alert "Failed to save student"]) /\
  (truthy_str (editingId v) = false ->
      fst (addDocument "students" (form_object (formData v)) w) = inl e ->
      db (handleSubmit v w).2
      = db (snd (addDocument "students" (form_object (formData v)) w)) /\
      console (handleSubmit v w).2
      = console w ++ [ConsoleError "Error adding document:" e;
                      ConsoleError "Error saving student:" e;
                      Alert "Failed to save student"]).
Proof.
  split.
  - intros id Hid Hne He. rewrite (handleSubmit_edit v w id) by done.
    assert (Hc := updateDocument_console "students" id (form_object (formData v)) w).
    destruct (updateDocument "students" id (form_object (formData v)) w)
      as [[e'|[]] w1]; [|discriminate].
    simpl in *. injection He as ->. split; [done|].
    rewrite Hc. by rewrite <- !app_assoc.
  - intros Hf He. rewrite (handleSubmit_create v w) by done.
    assert (Hc := addDocument_console "students" (form_object (formData v)) w).
    destruct (addDocument "students" (form_object (formData v)) w)
      as [[e'|newId] w1]; [|discriminate].
    simpl in *. injection He as ->. split; [done|].
    rewrite Hc. by rewrite <- !app_assoc.
Qed.

Lemma failed_submit_trace_witness :
  db (handleSubmit Sample.editing_juan Sample.offline).2
  = db (snd (updateDocument "students" "s1"
               (form_object (formData Sample.editing_juan)) Sample.offline)) /\
  console (handleSubmit Sample.editing_juan Sample.offline).2
  = console Sample.offline ++
    [ConsoleError "Error updating document:" Sample.unavailable;
     ConsoleError "Error saving student:" Sample.unavailable;
     Alert "Failed to save student"].
Proof.
  apply (proj1 (failed_submit_trace Sample.editing_juan Sample.offline
                  Sample.unavailable) "s1").
  - reflexivity.
  - discriminate.
  - vm_compute. reflexivity.
Defined.

(** * Further properties of the dashboard over the reference store *)



Lemma loadStudents_healthy (v : View) (w : World MemStore.t) :
  MemStore.faults (db w) = [] ->
  loadStudents v w =
  (setLoading false (setStudents (listed (db w) "students") (setLoading true v)), w).
Proof.
  intros H. unfold loadStudents. by rewrite getAllDocuments_healthy.
Qed.





(** The row the list shows for a stored object without an [id] field of its
    own, once opened for editing: the editing identifier is the document's
    and each form field is the stored text. *)
Lemma handleEdit_of_row (id : string) (stored : record) (v : View) (k : control)
    (text : string) :
  stored !! "id" = None ->
  stored !! control_name k = Some (VStr text) ->
  editingId (handleEdit (with_id {| snap_id := id; snap_data := Some stored |}) v)
  = Some id /\
  form_field k
    (formData (handleEdit (with_id {| snap_id := id; snap_data := Some stored |}) v))
  = text.
Proof.
  intros Hid Hk. unfold handleEdit. simpl.
  rewrite (with_id_fresh _ stored) by done. simpl. split; [done|].
  assert (Ht : text_of (with_id {| snap_id := id; snap_data := Some stored |})
                 (control_name k) = text).
  { unfold text_of. by rewrite (with_id_stored _ stored (control_name k) (VStr text)). }
  by destruct k.
Qed.

(** X15: over a healthy store, take a record whose five form fields are
    text and that has no [id] field of its own.  Opening its row for
    editing, changing one control and submitting stores the new value in
    that field, leaves every other field of the record as it was except
    [updatedAt], which is the time of the submission, and leaves the page
    with the form reset and the list read again from the store. *)
Theorem edit_one_field_and_submit (id : string) (stored : record) (k : control)
    (value : string) (v : View) (w : World MemStore.t) :
  MemStore.faults (db w) = [] ->
  MemStore.coll (db w) "students" !! id = Some stored ->
  id <> "" ->
  stored !! "id" = None ->
  (forall k', exists text, stored !! control_name k' = Some (VStr text)) ->
  let row := with_id {| snap_id := id; snap_data := Some stored |} in
  let submitted := handleSubmit (handleInputChange k value (handleEdit row v)) w in
  exists stored',
    MemStore.coll (db submitted.2) "students" !! id = Some stored' /\
    stored' !! control_name k = Some (VStr value) /\
    (forall f, f <> control_name k -> f <> "updatedAt" -> stored' !! f = stored !! f) /\
    stored' !! "updatedAt" = Some (VStr (Iso.toISOString (clock w (ticks w)))) /\
    students submitted.1 = listed (db submitted.2) "students" /\
    formData submitted.1 = emptyForm /\
    editingId submitted.1 = None /\
    showModal submitted.1 = false.
Proof.
  intros H Hs Hne Hid Htext row submitted.
  set (editing := handleInputChange k value (handleEdit row v)).
  assert (Hed : editingId editing = Some id).
  { destruct (Htext k) as [text Hk].
    exact (proj1 (handleEdit_of_row id stored v k text Hid Hk)). }
  assert (Hform : forall k',
             form_object (formData editing) !! control_name k'
             = if decide (k = k') then Some (VStr value) else stored !! control_name k').
  { intros k'. rewrite form_object_lookup. subst editing.
    rewrite form_field_change. destruct (decide (k = k')) as [|Hk]; [done|].
    destruct (Htext k') as [text Hk'].
    rewrite Hk'. f_equal. f_equal.
    exact (proj2 (handleEdit_of_row id stored v k' text Hid Hk')). }
  exists (touched (form_object (formData editing)) w ∪ stored).
  subst submitted. fold editing.
  rewrite (handleSubmit_edit editing w id) by done.
  rewrite (updateDocument_healthy "students" id _ stored) by done.
  rewrite loadStudents_healthy by done. simpl.
  split; [apply coll_put|]. unfold touched. split; [|split; [|split]].
  - apply lookup_union_Some_l. rewrite lookup_insert_ne by by destruct k.
    rewrite Hform. by rewrite decide_True.
  - intros f Hf Hu. rewrite lookup_union, lookup_insert_ne by done.
    destruct (control_name_cases f) as [[k' ->]|Hno].
    + rewrite Hform. rewrite decide_False by (intros ->; by apply Hf).
      by destruct (stored !! control_name k').
    + rewrite form_object_other by done. by destruct (stored !! f).
  - apply lookup_union_Some_l, lookup_insert_eq.
  - done.
Qed.

Lemma edit_one_field_and_submit_witness :
  let row := with_id {| snap_id := "s1"; snap_data := Some Sample.juan |} in
  let submitted :=
    handleSubmit (handleInputChange EmailInput "jdc@g.msuiit.edu.ph"
                    (handleEdit row initialView)) Sample.campus in
  exists stored',
    MemStore.coll (db submitted.2) "students" !! "s1" = Some stored' /\
    stored' !! control_name EmailInput = Some (VStr "jdc@g.msuiit.edu.ph") /\
    (forall f, f <> control_name EmailInput -> f <> "updatedAt" ->
               stored' !! f = Sample.juan !! f) /\
    stored' !! "updatedAt"
    = Some (VStr (Iso.toISOString (clock Sample.campus (ticks Sample.campus)))) /\
    students submitted.1 = listed (db submitted.2) "students" /\
    formData submitted.1 = emptyForm /\
    editingId submitted.1 = None /\
    showModal submitted.1 = false.
Proof.
  apply (edit_one_field_and_submit "s1" Sample.juan EmailInput "jdc@g.msuiit.edu.ph"
           initialView Sample.campus).
  - reflexivity.
  - vm_compute. reflexivity.
  - discriminate.
  - vm_compute. reflexivity.
  - intros []; eexists; vm_compute; reflexivity.
Defined.
